(** * The EFS CSI controller service (pkg/driver/controller.go)

    A shallow embedding of [CreateVolume], [DeleteVolume] and
    [ValidateVolumeCapabilities].  The collaborators of the controller (the
    cloud client, the identity allocator, the mounter, the [os] package
    and the [uuid] generator) are state-passing operations on an abstract
    world; every call made is recorded, with its arguments and its answer,
    in a trace that is threaded through the RPC.  Logging ([klog]) has no
    effect on the results and is left out. *)

From Stdlib Require Import ZArith String Ascii List Bool DecimalString.
From stdpp Require Import base option gmap strings list.

Open Scope string_scope.
Open Scope Z_scope.

(** ** Constants of the controller (controller.go, lines 33-47) *)

Definition AccessPointMode : string := "efs-ap".
Definition FsId : string := "fileSystemId".
Definition GidMin : string := "gidRangeStart".
Definition GidMax : string := "gidRangeEnd".
Definition DirectoryPerms : string := "directoryPerms".
Definition BasePath : string := "basePath".
Definition ProvisioningMode : string := "provisioningMode".
Definition DefaultGidMin : Z := 50000.
Definition DefaultGidMax : Z := 7000000.
Definition RootDirPrefix : string := "efs-csi-ap".
Definition TempMountPathPrefix : string := "/var/lib/csi/pv".
Definition DefaultTagKey : string := "efs.csi.aws.com/cluster".
Definition DefaultTagValue : string := "true".

(** ** Go library functions used by the controller *)

Module Go.

(** Go's [int] on the 64-bit platforms the driver is built for. *)
Definition minInt : Z := - 2 ^ 63.
Definition maxInt : Z := 2 ^ 63 - 1.

Definition byte_of (c : ascii) : Z := Z.of_N (N_of_ascii c).

Definition digit_of (c : ascii) : option Z :=
  let n := byte_of c in
  if (48 <=? n) && (n <=? 57) then Some (n - 48) else None.

Fixpoint parse_digits (acc : Z) (s : string) : option Z :=
  match s with
  | EmptyString => Some acc
  | String c r =>
      match digit_of c with
      | Some d => parse_digits (acc * 10 + d) r
      | None => None
      end
  end.

(** [strconv.Atoi]: an optional sign, then one or more decimal digits;
    [None] stands for a non-nil error (syntax or range). *)
Definition Atoi (s : string) : option Z :=
  let '(neg, body) :=
    match s with
    | String "-" r => (true, r)
    | String "+" r => (false, r)
    | _ => (false, s)
    end in
  match body with
  | EmptyString => None
  | _ =>
      match parse_digits 0 body with
      | Some n =>
          let v := if neg then - n else n in
          if (minInt <=? v) && (v <=? maxInt) then Some v else None
      | None => None
      end
  end.

(** [strconv.Itoa]: the decimal rendering of an [int]. *)
Definition Itoa (n : Z) : string := NilZero.string_of_int (Z.to_int n).

Definition ascii_space (b : Z) : bool :=
  (b =? 9) || (b =? 10) || (b =? 11) || (b =? 12) || (b =? 13) || (b =? 32).

(** The bytes are the UTF-8 encodings of white-space runes only
    ([unicode.IsSpace]): the six ASCII ones, U+0085, U+00A0, U+1680,
    U+2000..U+200A, U+2028, U+2029, U+202F, U+205F and U+3000. *)
Fixpoint all_space (bs : list Z) : bool :=
  match bs with
  | [] => true
  | b :: r1 =>
      if ascii_space b then all_space r1
      else
        match r1 with
        | b2 :: r2 =>
            if (b =? 194) && ((b2 =? 133) || (b2 =? 160)) then all_space r2
            else
              match r2 with
              | b3 :: r3 =>
                  if (b =? 225) && (b2 =? 154) && (b3 =? 128) then all_space r3
                  else if (b =? 226) && (b2 =? 128)
                          && (((128 <=? b3) && (b3 <=? 138))
                              || (b3 =? 168) || (b3 =? 169) || (b3 =? 175))
                  then all_space r3
                  else if (b =? 226) && (b2 =? 129) && (b3 =? 159) then all_space r3
                  else if (b =? 227) && (b2 =? 128) && (b3 =? 128) then all_space r3
                  else false
              | [] => false
              end
        | [] => false
        end
  end.

(** [strings.TrimSpace(s) == ""]: trimming leaves nothing exactly when
    the string consists of white space only. *)
Definition TrimSpace_is_empty (s : string) : bool :=
  all_space (map byte_of (list_ascii_of_string s)).

(** [strings.Split(s, ":")]. *)
Fixpoint Split_colon (s : string) : list string :=
  match s with
  | EmptyString => [EmptyString]
  | String c r =>
      if Ascii.eqb c ":" then EmptyString :: Split_colon r
      else
        match Split_colon r with
        | t :: ts => String c t :: ts
        | [] => [String c EmptyString]
        end
  end.

End Go.

(** ** Data model *)

(** gRPC status codes ([google.golang.org/grpc/codes]). *)
Inductive Code :=
| OK | Canceled | Unknown | InvalidArgument | DeadlineExceeded | NotFound
| AlreadyExists | PermissionDenied | ResourceExhausted | FailedPrecondition
| Aborted | OutOfRange | Unimplemented | Internal | Unavailable | DataLoss
| Unauthenticated.

(** A Go [error] value handed back by a collaborator.  The first three are
    the sentinels of the cloud package, which the controller tells apart
    with [==]; any other error carries its text. *)
Inductive error :=
| ErrAccessDenied
| ErrNotFound
| ErrAlreadyExists
| ErrOther (text : string).

#[global] Instance error_eq_dec : EqDecision error.
Proof. solve_decision. Defined.

(** The message of a status built by the controller: one constructor per
    message text or format string of controller.go, with the values that
    fill its verbs. *)
Inductive Msg :=
| MsgVolumeNameNotProvided                       (* "Volume name not provided" *)
| MsgVolumeCapsNotProvided                       (* "Volume capabilities not provided" *)
| MsgVolumeCapsNotSupported                      (* "Volume capabilities not supported" *)
| MsgProvisioningModeNotSupported (mode : string) (* "Provisioning mode ... is not supported. ..." *)
| MsgMissingParameter (key : string)             (* "Missing %v parameter" *)
| MsgParameterCannotBeEmpty (key : string)       (* "Parameter %v cannot be empty" *)
| MsgFailedToParse (key value : string)          (* "Failed to parse invalid %v: %v" *)
| MsgMustBeGreaterThanZero (key : string)        (* "%v must be greater than 0" *)
| MsgMustBeGreaterThan (key other : string)      (* "%v must be greater than %v" *)
| MsgAccessDenied (err : error)                  (* "Access Denied. Please ensure ...: %v" *)
| MsgFileSystemDoesNotExist (err : error)        (* "File System does not exist: %v" *)
| MsgFailedToFetchFileSystem (err : error)       (* "Failed to fetch File System info: %v" *)
| MsgAccessPointAlreadyExists                    (* "Access Point already exists" *)
| MsgFailedToCreateAccessPoint (fs : string) (err : error)
                                                 (* "Failed to create Access point in File System %v : %v" *)
| MsgVolumeIdNotProvided                         (* "Volume ID not provided" *)
| MsgCouldNotDescribeAccessPoint (ap : string) (err : error)
                                                 (* "Could not get describe Access Point: %v , error: %v" *)
| MsgCouldNotCreateDir (target : string) (err : error)
                                                 (* "Could not create dir %q: %v" *)
| MsgCouldNotMount (fs target : string) (err : error)
                                                 (* "Could not mount %q at %q: %v" *)
| MsgCouldNotDeleteRootDir (rootDir : string) (err : error)
                                                 (* "Could not delete access point root directory %q: %v" *)
| MsgCouldNotUnmount (target : string) (err : error)
                                                 (* "Could not unmount %q: %v" *)
| MsgCouldNotDelete (target : string) (err : error)
                                                 (* "Could not delete %q: %v" *)
| MsgFailedToDeleteVolume (volId : string) (err : error)
                                                 (* "Failed to Delete volume %v: %v" *)
| MsgFailedToFindAccessPoint (volId : string)    (* "Failed to find access point for volume: %v" *)
| MsgVolumeNotFound (err : error).               (* "Volume not found, err: %v" *)

(** The error result of an RPC: a status built here with [status.Error] or
    [status.Errorf], or an error of a collaborator returned as it came. *)
Inductive RpcError :=
| Status (c : Code) (m : Msg)
| Propagated (e : error).

(** [csi.VolumeCapability_AccessMode_Mode]. *)
Inductive AccessMode :=
| UNKNOWN
| SINGLE_NODE_WRITER
| SINGLE_NODE_READER_ONLY
| MULTI_NODE_READER_ONLY
| MULTI_NODE_SINGLE_WRITER
| MULTI_NODE_MULTI_WRITER.

#[global] Instance AccessMode_eq_dec : EqDecision AccessMode.
Proof. solve_decision. Defined.

Record VolumeCapability := { Mode : AccessMode }.

Record CapacityRange := { RequiredBytes : Z; LimitBytes : Z }.

(** [GetRequiredBytes] on a possibly nil capacity range. *)
Definition GetRequiredBytes (r : option CapacityRange) : Z :=
  match r with
  | Some c => RequiredBytes c
  | None => 0
  end.

Record CreateVolumeRequest := {
  Name : string;
  CapacityRange_ : option CapacityRange;
  VolumeCapabilities : list VolumeCapability;
  Parameters : gmap string string
}.

Record Volume := {
  CapacityBytes : Z;
  VolumeId : string;
  VolumeContext : gmap string string
}.

Record CreateVolumeResponse := { Volume_ : Volume }.

Record DeleteVolumeRequest := { DeleteVolumeId : string }.

(** [csi.DeleteVolumeResponse] has no fields. *)
Record DeleteVolumeResponse := mkDeleteVolumeResponse { }.

Record ValidateVolumeCapabilitiesRequest := {
  ValidateVolumeId : string;
  ValidateVolumeCapabilities_ : list VolumeCapability
}.

Record ValidateVolumeCapabilitiesResponse := {
  Confirmed : option (list VolumeCapability)
}.

(** [cloud.AccessPointOptions], the fields the controller fills. *)
Record AccessPointOptions := {
  CapacityGiB : Z;
  Tags : gmap string string;
  FileSystemId : string;
  DirectoryPerms_ : string;
  Uid : Z;
  Gid : Z;
  DirectoryPath : string
}.

(** [cloud.AccessPoint], the fields the controller reads. *)
Record AccessPoint := {
  AccessPointId : string;
  AccessPointRootDir : string
}.

(** A call to a collaborator, with its arguments and what it answered. *)
Inductive Event :=
| CallDescribeFileSystem (fs : string) (r : option error)
| CallGetNextGid (fs : string) (lo hi : Z) (r : error + Z)
| CallReleaseGid (fs : string) (gid : Z)
| CallUuidNew (r : string)
| CallCreateAccessPoint (name : string) (opts : AccessPointOptions) (r : error + AccessPoint)
| CallDescribeAccessPoint (ap : string) (r : error + AccessPoint)
| CallDeleteAccessPoint (ap : string) (r : option error)
| CallMakeDir (target : string) (r : option error)
| CallMount (source target fstype : string) (options : list string) (r : option error)
| CallUnmount (target : string) (r : option error)
| CallOsRemove (path : string) (r : option error)
| CallOsRemoveAll (path : string) (r : option error).

(** The collaborators, each operation a transition on the world [W] they
    live in; [None] is a nil error. *)

(** [cloud.Cloud], the client of the storage service. *)
Record Cloud (W : Type) := {
  DescribeFileSystem : string -> W -> option error * W;
  CreateAccessPoint : string -> AccessPointOptions -> W -> (error + AccessPoint) * W;
  DescribeAccessPoint : string -> W -> (error + AccessPoint) * W;
  DeleteAccessPoint : string -> W -> option error * W
}.

(** The identity allocator of the driver. *)
Record GidAllocator (W : Type) := {
  getNextGid : string -> Z -> Z -> W -> (error + Z) * W;
  releaseGid : string -> Z -> W -> W
}.

(** The mounter of the driver. *)
Record Mounter (W : Type) := {
  MakeDir : string -> W -> option error * W;
  Mount : string -> string -> string -> list string -> W -> option error * W;
  Unmount : string -> W -> option error * W
}.

(** The fields of [Driver] read by the controller. *)
Record Driver (W : Type) := {
  cloud : Cloud W;
  mounter : Mounter W;
  gidAllocator : GidAllocator W;
  tags : gmap string string;
  deleteAccessPointRootDir : bool
}.

(** What the controller uses besides its driver: the packages [os] and
    [uuid], and from the rest of package driver the decoder of volume
    identifiers and the table of supported access modes. *)
Record Env (W : Type) := {
  os_Remove : string -> W -> option error * W;
  os_RemoveAll : string -> W -> option error * W;
  uuid_New : W -> string * W;
  parseVolumeId : string -> error + (string * string * string);
  volumeCapAccessModes : list AccessMode
}.

Arguments DescribeFileSystem {W}.
Arguments CreateAccessPoint {W}.
Arguments DescribeAccessPoint {W}.
Arguments DeleteAccessPoint {W}.
Arguments getNextGid {W}.
Arguments releaseGid {W}.
Arguments MakeDir {W}.
Arguments Mount {W}.
Arguments Unmount {W}.
Arguments cloud {W}.
Arguments mounter {W}.
Arguments gidAllocator {W}.
Arguments tags {W}.
Arguments deleteAccessPointRootDir {W}.
Arguments os_Remove {W}.
Arguments os_RemoveAll {W}.
Arguments uuid_New {W}.
Arguments parseVolumeId {W}.
Arguments volumeCapAccessModes {W}.

(** ** The monad of an RPC: the collaborators' world and the trace of the
    calls made so far are threaded through; an error ends the RPC. *)

Definition St (W : Type) : Type := W * list Event.

Definition M (W A : Type) : Type := St W -> (RpcError + A) * St W.

Definition ret {W A} (a : A) : M W A := fun st => (inr a, st).

Definition fail {W A} (e : RpcError) : M W A := fun st => (inl e, st).

Definition bind {W A B} (m : M W A) (k : A -> M W B) : M W B :=
  fun st =>
    match m st with
    | (inr a, st') => k a st'
    | (inl e, st') => (inl e, st')
    end.

(** A call to a collaborator: run its transition and log it. *)
Definition call {W A} (op : W -> A * W) (ev : A -> Event) : M W A :=
  fun st =>
    let '(r, w') := op (fst st) in
    (inr r, (w', (snd st ++ [ev r])%list)).

Definition call_ {W} (op : W -> W) (ev : Event) : M W unit :=
  fun st => (inr tt, (op (fst st), (snd st ++ [ev])%list)).

Notation "x <- m ;; k" := (bind m (fun x => k))
  (at level 100, m at next level, right associativity).
Notation "m ;;; k" := (bind m (fun _ => k))
  (at level 100, right associativity).

(** ** The controller *)

Section Controller.

Context {W : Type} (env : Env W) (d : Driver W).

(** Modelled from the spec: [isValidVolumeCapabilities], a method of the
    driver defined outside controller.go; a stateless predicate checking
    every requested access mode against the fixed supported set. *)
Definition isValidVolumeCapabilities (volCaps : list VolumeCapability) : bool :=
  forallb (fun c => bool_decide (Mode c ∈ volumeCapAccessModes env)) volCaps.

Definition CreateVolume (req : CreateVolumeRequest) : M W CreateVolumeResponse :=
  let volName := Name req in
  if decide (volName = "") then fail (Status InvalidArgument MsgVolumeNameNotProvided) else
  let volSize := GetRequiredBytes (CapacityRange_ req) in
  let volCaps := VolumeCapabilities req in
  if decide (length volCaps = 0%nat) then fail (Status InvalidArgument MsgVolumeCapsNotProvided) else
  if negb (isValidVolumeCapabilities volCaps) then fail (Status InvalidArgument MsgVolumeCapsNotSupported) else
  let volumeParams := Parameters req in
  provisioningMode <-
    match volumeParams !! ProvisioningMode with
    | Some value =>
        if decide (value ≠ AccessPointMode)
        then fail (Status InvalidArgument (MsgProvisioningModeNotSupported value))
        else ret value
    | None => fail (Status InvalidArgument (MsgMissingParameter ProvisioningMode))
    end ;;
  (* the default tag, overwritten key by key with the driver's tags *)
  let tags_ := tags d ∪ {[ DefaultTagKey := DefaultTagValue ]} in
  fileSystemId <-
    match volumeParams !! FsId with
    | Some value =>
        if Go.TrimSpace_is_empty value
        then fail (Status InvalidArgument (MsgParameterCannotBeEmpty FsId))
        else ret value
    | None => fail (Status InvalidArgument (MsgMissingParameter FsId))
    end ;;
  gidMin <-
    match volumeParams !! GidMin with
    | Some value =>
        match Go.Atoi value with
        | None => fail (Status InvalidArgument (MsgFailedToParse GidMin value))
        | Some gidMin =>
            if gidMin <=? 0
            then fail (Status InvalidArgument (MsgMustBeGreaterThanZero GidMin))
            else ret gidMin
        end
    | None => ret 0
    end ;;
  gidMax <-
    match volumeParams !! GidMax with
    | Some value =>
        if gidMin =? 0 then fail (Status InvalidArgument (MsgMissingParameter GidMin))
        else
          match Go.Atoi value with
          | None => fail (Status InvalidArgument (MsgFailedToParse GidMax value))
          | Some gidMax =>
              if gidMax <=? gidMin
              then fail (Status InvalidArgument (MsgMustBeGreaterThan GidMax GidMin))
              else ret gidMax
          end
    | None =>
        if negb (gidMin =? 0) then fail (Status InvalidArgument (MsgMissingParameter GidMin))
        else ret 0
    end ;;
  let '(gidMin, gidMax) :=
    if (gidMin =? 0) && (gidMax =? 0) then (DefaultGidMin, DefaultGidMax)
    else (gidMin, gidMax) in
  let directoryPerms := default "" (volumeParams !! DirectoryPerms) in
  let basePath := default "" (volumeParams !! BasePath) in
  err <- call (DescribeFileSystem (cloud d) fileSystemId) (CallDescribeFileSystem fileSystemId) ;;
  match err with
  | Some err =>
      if decide (err = ErrAccessDenied) then fail (Status Unauthenticated (MsgAccessDenied err))
      else if decide (err = ErrNotFound) then fail (Status InvalidArgument (MsgFileSystemDoesNotExist err))
      else fail (Status Internal (MsgFailedToFetchFileSystem err))
  | None =>
      r <- call (getNextGid (gidAllocator d) fileSystemId gidMin gidMax)
                (CallGetNextGid fileSystemId gidMin gidMax) ;;
      match r with
      | inl err => fail (Propagated err)
      | inr gid =>
          let gidStr := Go.Itoa gid in
          u <- call (uuid_New env) CallUuidNew ;;
          let rootDirName := RootDirPrefix ++ "-" ++ gidStr ++ "-" ++ u in
          let rootDir := basePath ++ "/" ++ rootDirName in
          let accessPointsOptions :=
            {| CapacityGiB := volSize;
               Tags := tags_;
               FileSystemId := fileSystemId;
               DirectoryPerms_ := directoryPerms;
               Uid := gid;
               Gid := gid;
               DirectoryPath := rootDir |} in
          r <- call (CreateAccessPoint (cloud d) volName accessPointsOptions)
                    (CallCreateAccessPoint volName accessPointsOptions) ;;
          match r with
          | inl err =>
              call_ (releaseGid (gidAllocator d) fileSystemId gid)
                    (CallReleaseGid fileSystemId gid) ;;;
              if decide (err = ErrAccessDenied) then fail (Status Unauthenticated (MsgAccessDenied err))
              else if decide (err = ErrAlreadyExists) then fail (Status AlreadyExists MsgAccessPointAlreadyExists)
              else fail (Status Internal (MsgFailedToCreateAccessPoint fileSystemId err))
          | inr accessPointId =>
              ret {| Volume_ :=
                       {| CapacityBytes := volSize;
                          VolumeId := fileSystemId ++ "::" ++ AccessPointId accessPointId;
                          VolumeContext := ∅ |} |}
          end
      end
  end.

Definition DeleteVolume (req : DeleteVolumeRequest) : M W DeleteVolumeResponse :=
  let volId := DeleteVolumeId req in
  if decide (volId = "") then fail (Status InvalidArgument MsgVolumeIdNotProvided) else
  match parseVolumeId env volId with
  | inl err =>
      (* returning success for an invalid volume ID *)
      ret mkDeleteVolumeResponse
  | inr (fileSystemId, _, accessPointId) =>
      if decide (accessPointId ≠ "") then
        (* the statements after the root-directory block, reached by
           falling out of it or when the flag is off *)
        let deleteAccessPoint : M W DeleteVolumeResponse :=
          err <- call (DeleteAccessPoint (cloud d) accessPointId)
                      (CallDeleteAccessPoint accessPointId) ;;
          match err with
          | Some err =>
              if decide (err = ErrAccessDenied) then fail (Status Unauthenticated (MsgAccessDenied err))
              else if decide (err = ErrNotFound) then ret mkDeleteVolumeResponse
              else fail (Status Internal (MsgFailedToDeleteVolume volId err))
          | None => ret mkDeleteVolumeResponse
          end in
        if deleteAccessPointRootDir d then
          r <- call (DescribeAccessPoint (cloud d) accessPointId)
                    (CallDescribeAccessPoint accessPointId) ;;
          match r with
          | inl err =>
              if decide (err = ErrAccessDenied) then fail (Status Unauthenticated (MsgAccessDenied err))
              else if decide (err = ErrNotFound) then ret mkDeleteVolumeResponse
              else fail (Status Internal (MsgCouldNotDescribeAccessPoint accessPointId err))
          | inr accessPoint =>
              let mountOptions := ["tls"] in
              let target := TempMountPathPrefix ++ "/" ++ accessPointId in
              err <- call (MakeDir (mounter d) target) (CallMakeDir target) ;;
              match err with
              | Some err => fail (Status Internal (MsgCouldNotCreateDir target err))
              | None =>
              err <- call (Mount (mounter d) fileSystemId target "efs" mountOptions)
                          (CallMount fileSystemId target "efs" mountOptions) ;;
              match err with
              | Some err =>
                  call (os_Remove env target) (CallOsRemove target) ;;;
                  fail (Status Internal (MsgCouldNotMount fileSystemId target err))
              | None =>
              err <- call (os_RemoveAll env (target ++ AccessPointRootDir accessPoint))
                          (CallOsRemoveAll (target ++ AccessPointRootDir accessPoint)) ;;
              match err with
              | Some err =>
                  fail (Status Internal (MsgCouldNotDeleteRootDir (AccessPointRootDir accessPoint) err))
              | None =>
              err <- call (Unmount (mounter d) target) (CallUnmount target) ;;
              match err with
              | Some err => fail (Status Internal (MsgCouldNotUnmount target err))
              | None =>
              err <- call (os_RemoveAll env target) (CallOsRemoveAll target) ;;
              match err with
              | Some err => fail (Status Internal (MsgCouldNotDelete target err))
              | None => deleteAccessPoint
              end end end end end
          end
        else deleteAccessPoint
      else fail (Status NotFound (MsgFailedToFindAccessPoint volId))
  end.

Definition ValidateVolumeCapabilities (req : ValidateVolumeCapabilitiesRequest)
  : M W ValidateVolumeCapabilitiesResponse :=
  let volId := ValidateVolumeId req in
  if decide (volId = "") then fail (Status InvalidArgument MsgVolumeIdNotProvided) else
  let volCaps := ValidateVolumeCapabilities_ req in
  if decide (length volCaps = 0%nat) then fail (Status InvalidArgument MsgVolumeCapsNotProvided) else
  match parseVolumeId env volId with
  | inl err => fail (Status NotFound (MsgVolumeNotFound err))
  | inr _ =>
      let confirmed := if isValidVolumeCapabilities volCaps then Some volCaps else None in
      ret {| Confirmed := confirmed |}
  end.

End Controller.

(** ** The decoder of volume identifiers *)

(** [s] holds no delimiter [":"]. *)
Fixpoint colon_free (s : string) : bool :=
  match s with
  | EmptyString => true
  | String c r => negb (Ascii.eqb c ":") && colon_free r
  end.

(** Modelled from the spec: [parseVolumeId], defined outside
    controller.go.  The identifier is [fileSystemId:subPath:accessPointId]
    with the delimiter [":"] that no field may hold; decoding fails with
    InvalidFormat when fewer than three delimited segments are present or
    a mandatory segment (fileSystemId, accessPointId) is empty.  A string
    with more than three segments encodes no triple of delimiter-free
    fields and is InvalidFormat too. *)
Definition parseVolumeId_spec (volumeId : string) : error + (string * string * string) :=
  match Go.Split_colon volumeId with
  | [fsid; subpath; apid] =>
      if decide (fsid = "") then inl (ErrOther "InvalidFormat")
      else if decide (apid = "") then inl (ErrOther "InvalidFormat")
      else inr (fsid, subpath, apid)
  | _ => inl (ErrOther "InvalidFormat")
  end.

(** A decoder for which the sub-path and access-point segments are
    optional, so that an identifier such as ["fs-1"] decodes with an empty
    access-point identifier: the case the last branch of [DeleteVolume]
    answers. *)
Definition parseVolumeId_optional (volumeId : string) : error + (string * string * string) :=
  match Go.Split_colon volumeId with
  | [fsid] =>
      if decide (fsid = "") then inl (ErrOther "InvalidFormat") else inr (fsid, "", "")
  | [fsid; subpath] =>
      if decide (fsid = "") then inl (ErrOther "InvalidFormat") else inr (fsid, subpath, "")
  | [fsid; subpath; apid] =>
      if decide (fsid = "") then inl (ErrOther "InvalidFormat") else inr (fsid, subpath, apid)
  | _ => inl (ErrOther "InvalidFormat")
  end.

(** ** Vocabulary of the properties *)

(** The first of the request checks of [CreateVolume] that fails, in the
    order name, capabilities, provisioning mode, file system; [None] when
    all four pass. *)
Definition first_failed_check {W} (env : Env W) (req : CreateVolumeRequest) : option Msg :=
  if decide (Name req = "") then Some MsgVolumeNameNotProvided
  else if decide (VolumeCapabilities req = []) then Some MsgVolumeCapsNotProvided
  else if negb (isValidVolumeCapabilities env (VolumeCapabilities req))
       then Some MsgVolumeCapsNotSupported
  else
    match Parameters req !! ProvisioningMode with
    | None => Some (MsgMissingParameter ProvisioningMode)
    | Some mode =>
        if decide (mode = "efs-ap") then
          match Parameters req !! FsId with
          | None => Some (MsgMissingParameter FsId)
          | Some fs =>
              if Go.TrimSpace_is_empty fs then Some (MsgParameterCannotBeEmpty FsId)
              else None
          end
        else Some (MsgProvisioningModeNotSupported mode)
    end.

(** [CreateVolume] answers InvalidArgument with message [m], having
    called no collaborator: the world and the trace are as they were. *)
Definition rejects {W} (env : Env W) (d : Driver W) (req : CreateVolumeRequest)
    (st : St W) (m : Msg) : Prop :=
  CreateVolume env d req st = (inl (Status InvalidArgument m), st).

(** The identity range a parameter map asks for: the default range when
    neither bound is given, the given bounds when both are, parse as
    integers and satisfy [0 < gidRangeStart < gidRangeEnd]; [None] for
    every other map. *)
Definition gid_range (params : gmap string string) : option (Z * Z) :=
  match params !! GidMin, params !! GidMax with
  | None, None => Some (50000, 7000000)
  | Some a, Some b =>
      match Go.Atoi a, Go.Atoi b with
      | Some lo, Some hi => if (0 <? lo) && (lo <? hi) then Some (lo, hi) else None
      | _, _ => None
      end
  | _, _ => None
  end.

(** The options [CreateVolume] hands to the cloud for file system [fs],
    identity [gid] and unique suffix [u]. *)
Definition create_options {W} (d : Driver W) (req : CreateVolumeRequest)
    (fs : string) (gid : Z) (u : string) : AccessPointOptions :=
  {| CapacityGiB := GetRequiredBytes (CapacityRange_ req);
     Tags := tags d ∪ {[ DefaultTagKey := DefaultTagValue ]};
     FileSystemId := fs;
     DirectoryPerms_ := default "" (Parameters req !! DirectoryPerms);
     Uid := gid;
     Gid := gid;
     DirectoryPath :=
       default "" (Parameters req !! BasePath)
       ++ "/" ++ "efs-csi-ap" ++ "-" ++ Go.Itoa gid ++ "-" ++ u |}.

(** How a failure of the file-system lookup is reported. *)
Definition describe_failure (e : error) : RpcError :=
  match e with
  | ErrAccessDenied => Status Unauthenticated (MsgAccessDenied e)
  | ErrNotFound => Status InvalidArgument (MsgFileSystemDoesNotExist e)
  | _ => Status Internal (MsgFailedToFetchFileSystem e)
  end.

(** The class of a failed access-point creation. *)
Definition create_failure_code (e : error) : Code :=
  match e with
  | ErrAccessDenied => Unauthenticated
  | ErrAlreadyExists => AlreadyExists
  | _ => Internal
  end.

Definition is_unmount_of (target : string) (ev : Event) : bool :=
  match ev with
  | CallUnmount t _ => bool_decide (t = target)
  | _ => false
  end.

Definition is_removal_of (target : string) (ev : Event) : bool :=
  match ev with
  | CallOsRemove p _ | CallOsRemoveAll p _ => bool_decide (p = target)
  | _ => false
  end.

(** ** A scripted world *)

(** Collaborators that answer from a script; their world counts the calls
    they have served. *)
Record Script := {
  onDescribeFileSystem : option error;
  onGetNextGid : error + Z;
  onUuidNew : string;
  onCreateAccessPoint : error + AccessPoint;
  onDescribeAccessPoint : error + AccessPoint;
  onDeleteAccessPoint : option error;
  onMakeDir : option error;
  onMount : option error;
  onUnmount : option error;
  onRemoveAll : string -> option error
}.

Definition scripted_driver (s : Script) (tags_ : gmap string string) (flag : bool) : Driver nat :=
  {| cloud :=
       {| DescribeFileSystem := fun _ n => (onDescribeFileSystem s, S n);
          CreateAccessPoint := fun _ _ n => (onCreateAccessPoint s, S n);
          DescribeAccessPoint := fun _ n => (onDescribeAccessPoint s, S n);
          DeleteAccessPoint := fun _ n => (onDeleteAccessPoint s, S n) |};
     mounter :=
       {| MakeDir := fun _ n => (onMakeDir s, S n);
          Mount := fun _ _ _ _ n => (onMount s, S n);
          Unmount := fun _ n => (onUnmount s, S n) |};
     gidAllocator :=
       {| getNextGid := fun _ _ _ n => (onGetNextGid s, S n);
          releaseGid := fun _ _ n => S n |};
     tags := tags_;
     deleteAccessPointRootDir := flag |}.

Definition scripted_env (s : Script)
    (parse : string -> error + (string * string * string)) : Env nat :=
  {| os_Remove := fun _ n => (None, S n);
     os_RemoveAll := fun p n => (onRemoveAll s p, S n);
     uuid_New := fun n => (onUuidNew s, S n);
     parseVolumeId := parse;
     volumeCapAccessModes := [SINGLE_NODE_WRITER; MULTI_NODE_MULTI_WRITER] |}.

(** Every collaborator succeeds: the file system exists, identity 50000
    is free, and the access point created is ["ap-1"]. *)
Definition all_good : Script :=
  {| onDescribeFileSystem := None;
     onGetNextGid := inr 50000;
     onUuidNew := "123e4567-e89b-12d3-a456-426614174000";
     onCreateAccessPoint := inr {| AccessPointId := "ap-1"; AccessPointRootDir := "/efs-csi-ap-50000-x" |};
     onDescribeAccessPoint := inr {| AccessPointId := "ap-1"; AccessPointRootDir := "/efs-csi-ap-50000-x" |};
     onDeleteAccessPoint := None;
     onMakeDir := None;
     onMount := None;
     onUnmount := None;
     onRemoveAll := fun _ => None |}.

Definition with_create (r : error + AccessPoint) (s : Script) : Script :=
  {| onDescribeFileSystem := onDescribeFileSystem s;
     onGetNextGid := onGetNextGid s;
     onUuidNew := onUuidNew s;
     onCreateAccessPoint := r;
     onDescribeAccessPoint := onDescribeAccessPoint s;
     onDeleteAccessPoint := onDeleteAccessPoint s;
     onMakeDir := onMakeDir s;
     onMount := onMount s;
     onUnmount := onUnmount s;
     onRemoveAll := onRemoveAll s |}.

Definition with_describe (r : error + AccessPoint) (s : Script) : Script :=
  {| onDescribeFileSystem := onDescribeFileSystem s;
     onGetNextGid := onGetNextGid s;
     onUuidNew := onUuidNew s;
     onCreateAccessPoint := onCreateAccessPoint s;
     onDescribeAccessPoint := r;
     onDeleteAccessPoint := onDeleteAccessPoint s;
     onMakeDir := onMakeDir s;
     onMount := onMount s;
     onUnmount := onUnmount s;
     onRemoveAll := onRemoveAll s |}.

Definition with_delete (r : option error) (s : Script) : Script :=
  {| onDescribeFileSystem := onDescribeFileSystem s;
     onGetNextGid := onGetNextGid s;
     onUuidNew := onUuidNew s;
     onCreateAccessPoint := onCreateAccessPoint s;
     onDescribeAccessPoint := onDescribeAccessPoint s;
     onDeleteAccessPoint := r;
     onMakeDir := onMakeDir s;
     onMount := onMount s;
     onUnmount := onUnmount s;
     onRemoveAll := onRemoveAll s |}.

Definition with_removeAll (f : string -> option error) (s : Script) : Script :=
  {| onDescribeFileSystem := onDescribeFileSystem s;
     onGetNextGid := onGetNextGid s;
     onUuidNew := onUuidNew s;
     onCreateAccessPoint := onCreateAccessPoint s;
     onDescribeAccessPoint := onDescribeAccessPoint s;
     onDeleteAccessPoint := onDeleteAccessPoint s;
     onMakeDir := onMakeDir s;
     onMount := onMount s;
     onUnmount := onUnmount s;
     onRemoveAll := f |}.

(** The recursive removal of the access point's root directory under the
    ephemeral mount of ["ap-1"] fails; everything else succeeds. *)
Definition root_dir_removal_fails : Script :=
  with_removeAll
    (fun p => if decide (p = "/var/lib/csi/pv/ap-1/efs-csi-ap-50000-x")
              then Some (ErrOther "permission denied") else None)
    all_good.

(** The empty map, for a request without further parameters and a driver
    without tags of its own. *)
Definition no_entries : gmap string string := ∅.

(** Scenario A of the specification: volume ["v1"] on file system [fs]. *)
Definition request_on (fs : string) (extra : gmap string string) : CreateVolumeRequest :=
  {| Name := "v1";
     CapacityRange_ := Some {| RequiredBytes := 1073741824; LimitBytes := 0 |};
     VolumeCapabilities := [ {| Mode := MULTI_NODE_MULTI_WRITER |} ];
     Parameters := <[ ProvisioningMode := "efs-ap" ]> (<[ FsId := fs ]> extra) |}.

(** ** The capabilities of the controller (controller.go, lines 49-54
    and 328-342) *)

(** [csi.ControllerServiceCapability_RPC_Type]. *)
Inductive RPC_Type :=
| RPC_UNKNOWN
| CREATE_DELETE_VOLUME
| PUBLISH_UNPUBLISH_VOLUME
| LIST_VOLUMES
| GET_CAPACITY
| CREATE_DELETE_SNAPSHOT
| LIST_SNAPSHOTS
| CLONE_VOLUME
| PUBLISH_READONLY
| EXPAND_VOLUME.

(** [csi.ControllerServiceCapability]: its only variant wraps an RPC
    type. *)
Record ControllerServiceCapability := { Rpc_Type : RPC_Type }.

Record ControllerGetCapabilitiesResponse := {
  Capabilities : list ControllerServiceCapability
}.

(** controllerCaps represents the capability of controller service. *)
Definition controllerCaps : list RPC_Type := [CREATE_DELETE_VOLUME].

(** The loop of [ControllerGetCapabilities] over a table of RPC types:
    one capability is appended for each entry. *)
Definition append_capabilities (table : list RPC_Type)
    (caps : list ControllerServiceCapability) : list ControllerServiceCapability :=
  fold_left (fun caps cap => (caps ++ [ {| Rpc_Type := cap |} ])%list) table caps.

Definition ControllerGetCapabilities {W} : M W ControllerGetCapabilitiesResponse :=
  let caps := append_capabilities controllerCaps [] in
  ret {| Capabilities := caps |}.

(** ** Further vocabulary *)

(** The path a call to the mounter or to the [os] package works on. *)
Definition event_path (ev : Event) : option string :=
  match ev with
  | CallMakeDir p _ | CallMount _ p _ _ _ | CallUnmount p _
  | CallOsRemove p _ | CallOsRemoveAll p _ => Some p
  | _ => None
  end.

(** The codes of the statuses that [CreateVolume] builds. *)
Definition create_code (c : Code) : bool :=
  match c with
  | InvalidArgument | Unauthenticated | AlreadyExists | Internal => true
  | _ => false
  end.

(** The codes of the statuses that [DeleteVolume] builds. *)
Definition delete_code (c : Code) : bool :=
  match c with
  | InvalidArgument | NotFound | Unauthenticated | Internal => true
  | _ => false
  end.

(** The answer of [DeleteVolume] to the outcome of the access-point
    deletion. *)
Definition delete_outcome (volId : string) (r : option error)
  : RpcError + DeleteVolumeResponse :=
  match r with
  | None => inr mkDeleteVolumeResponse
  | Some ErrNotFound => inr mkDeleteVolumeResponse
  | Some ErrAccessDenied => inl (Status Unauthenticated (MsgAccessDenied ErrAccessDenied))
  | Some e => inl (Status Internal (MsgFailedToDeleteVolume volId e))
  end.

(** Scripts that differ from a given one in one answer. *)
Definition with_describeFileSystem (r : option error) (s : Script) : Script :=
  {| onDescribeFileSystem := r;
     onGetNextGid := onGetNextGid s;
     onUuidNew := onUuidNew s;
     onCreateAccessPoint := onCreateAccessPoint s;
     onDescribeAccessPoint := onDescribeAccessPoint s;
     onDeleteAccessPoint := onDeleteAccessPoint s;
     onMakeDir := onMakeDir s;
     onMount := onMount s;
     onUnmount := onUnmount s;
     onRemoveAll := onRemoveAll s |}.

Definition with_getNextGid (r : error + Z) (s : Script) : Script :=
  {| onDescribeFileSystem := onDescribeFileSystem s;
     onGetNextGid := r;
     onUuidNew := onUuidNew s;
     onCreateAccessPoint := onCreateAccessPoint s;
     onDescribeAccessPoint := onDescribeAccessPoint s;
     onDeleteAccessPoint := onDeleteAccessPoint s;
     onMakeDir := onMakeDir s;
     onMount := onMount s;
     onUnmount := onUnmount s;
     onRemoveAll := onRemoveAll s |}.

Definition with_mount (r : option error) (s : Script) : Script :=
  {| onDescribeFileSystem := onDescribeFileSystem s;
     onGetNextGid := onGetNextGid s;
     onUuidNew := onUuidNew s;
     onCreateAccessPoint := onCreateAccessPoint s;
     onDescribeAccessPoint := onDescribeAccessPoint s;
     onDeleteAccessPoint := onDeleteAccessPoint s;
     onMakeDir := onMakeDir s;
     onMount := r;
     onUnmount := onUnmount s;
     onRemoveAll := onRemoveAll s |}.

(** A driver with a tag of its own and one that replaces the default. *)
Definition sample_tags : gmap string string :=
  <[ "team" := "storage" ]> (<[ "efs.csi.aws.com/cluster" := "prod" ]> no_entries).

(** ** The Go library functions on examples *)

Example Atoi_plain : Go.Atoi "50000" = Some 50000.
Proof. reflexivity. Qed.

Example Atoi_signed : Go.Atoi "-12" = Some (-12) /\ Go.Atoi "+7" = Some 7.
Proof. split; reflexivity. Qed.

Example Atoi_syntax :
  Go.Atoi "" = None /\ Go.Atoi "-" = None /\ Go.Atoi "1_0" = None /\ Go.Atoi "12a" = None.
Proof. repeat split; reflexivity. Qed.

Example Atoi_range :
  Go.Atoi "9223372036854775807" = Some Go.maxInt /\ Go.Atoi "9223372036854775808" = None.
Proof. split; reflexivity. Qed.

Example Itoa_plain : Go.Itoa 50000 = "50000" /\ Go.Itoa 0 = "0" /\ Go.Itoa (-3) = "-3".
Proof. repeat split; reflexivity. Qed.

Example TrimSpace_blank :
  Go.TrimSpace_is_empty "  " = true /\ Go.TrimSpace_is_empty "" = true.
Proof. split; reflexivity. Qed.

Example TrimSpace_text : Go.TrimSpace_is_empty " fs-1 " = false.
Proof. reflexivity. Qed.

Example Split_three : Go.Split_colon "fs-1::ap-1" = ["fs-1"; ""; "ap-1"].
Proof. reflexivity. Qed.

Example Split_none : Go.Split_colon "" = [""] /\ Go.Split_colon "abc" = ["abc"].
Proof. split; reflexivity. Qed.

(** ** CreateVolume: the request checks *)

Section CreateVolumeChecks.

Context {W : Type} (env : Env W) (d : Driver W).

Lemma first_failed_check_None (req : CreateVolumeRequest) :
  first_failed_check env req = None ->
  Name req <> ""
  /\ VolumeCapabilities req <> []
  /\ isValidVolumeCapabilities env (VolumeCapabilities req) = true
  /\ Parameters req !! ProvisioningMode = Some "efs-ap"
  /\ exists fs, Parameters req !! FsId = Some fs /\ Go.TrimSpace_is_empty fs = false.
Proof.
  unfold first_failed_check. intros H.
  destruct (decide (Name req = "")) as [|Hname]; [discriminate|].
  destruct (decide (VolumeCapabilities req = [])) as [|Hcaps]; [discriminate|].
  destruct (isValidVolumeCapabilities env (VolumeCapabilities req)); [|discriminate].
  destruct (Parameters req !! ProvisioningMode) as [mode|]; [|discriminate].
  destruct (decide (mode = "efs-ap")) as [->|]; [|discriminate].
  destruct (Parameters req !! FsId) as [fs|]; [|discriminate].
  destruct (Go.TrimSpace_is_empty fs) eqn:Hblank; [discriminate|].
  simpl in H. repeat split; eauto.
Qed.

Lemma CreateVolume_rejects (req : CreateVolumeRequest) (m : Msg) (st : St W) :
  first_failed_check env req = Some m ->
  CreateVolume env d req st = (inl (Status InvalidArgument m), st).
Proof.
  unfold first_failed_check, CreateVolume. intros H.
  destruct (decide (Name req = "")) as [|Hname]; [by simplify_eq|].
  destruct (VolumeCapabilities req) as [|c caps] eqn:Hcaps.
  { simpl in H. by simplify_eq. }
  rewrite decide_False in H by done.
  rewrite decide_False by done.
  destruct (isValidVolumeCapabilities env (c :: caps)); simpl in *; [|by simplify_eq].
  unfold bind at 1.
  destruct (Parameters req !! ProvisioningMode) as [mode|]; [|by simplify_eq].
  unfold AccessPointMode.
  destruct (decide (mode = "efs-ap")) as [->|Hmode].
  - rewrite decide_False by (intros ?; done).
    unfold ret at 1. unfold bind at 1.
    destruct (Parameters req !! FsId) as [fs|]; [|by simplify_eq].
    destruct (Go.TrimSpace_is_empty fs); by simplify_eq.
  - rewrite decide_True by done. by simplify_eq.
Qed.

End CreateVolumeChecks.

(** ** CreateVolume: the identity range and the execution phase *)

Section CreateVolumeRun.

Context {W : Type} (env : Env W) (d : Driver W).

Ltac pass_checks Hchk :=
  let Hname := fresh "Hname" in
  let Hcaps := fresh "Hcaps" in
  let Hvalid := fresh "Hvalid" in
  let Hmode := fresh "Hmode" in
  let Hfs := fresh "Hfs" in
  let Hblank := fresh "Hblank" in
  let fs := fresh "fs" in
  destruct (first_failed_check_None env _ Hchk)
    as (Hname & Hcaps & Hvalid & Hmode & fs & Hfs & Hblank);
  unfold CreateVolume;
  rewrite (decide_False (P := Name _ = "")) by exact Hname;
  rewrite (decide_False (P := length _ = 0%nat))
    by (intros Hlen; apply Hcaps; by apply nil_length_inv);
  rewrite Hvalid; cbn [negb];
  unfold bind at 1; rewrite Hmode;
  rewrite (decide_False (P := "efs-ap" <> AccessPointMode)) by (intros Hne; by apply Hne);
  unfold ret at 1;
  unfold bind at 1; rewrite Hfs, Hblank;
  unfold ret at 1.

Lemma CreateVolume_range_rejected (req : CreateVolumeRequest) (st : St W) :
  first_failed_check env req = None ->
  gid_range (Parameters req) = None ->
  exists m, CreateVolume env d req st = (inl (Status InvalidArgument m), st).
Proof.
  intros Hchk Hrange. pass_checks Hchk.
  unfold gid_range in Hrange.
  unfold bind at 1.
  destruct (Parameters req !! GidMin) as [a|].
  - destruct (Go.Atoi a) as [lo|]; [|by eexists].
    destruct (Z.leb_spec lo 0); [by eexists|].
    unfold ret at 1. unfold bind at 1.
    destruct (Parameters req !! GidMax) as [b|].
    + destruct (Z.eqb_spec lo 0); [by eexists|].
      destruct (Go.Atoi b) as [hi|]; [|by eexists].
      destruct (Z.leb_spec hi lo); [by eexists|].
      exfalso.
      rewrite (proj2 (Z.ltb_lt 0 lo)), (proj2 (Z.ltb_lt lo hi)) in Hrange by lia.
      discriminate.
    + destruct (Z.eqb_spec lo 0); [lia|]. by eexists.
  - unfold ret at 1. unfold bind at 1.
    destruct (Parameters req !! GidMax) as [b|]; [by eexists|discriminate].
Qed.

Lemma CreateVolume_exec (req : CreateVolumeRequest) (fs : string) (lo hi : Z)
    (w : W) (tr : list Event) :
  first_failed_check env req = None ->
  Parameters req !! FsId = Some fs ->
  gid_range (Parameters req) = Some (lo, hi) ->
  CreateVolume env d req (w, tr) =
    let '(r1, w1) := DescribeFileSystem (cloud d) fs w in
    match r1 with
    | Some e =>
        (inl (describe_failure e), (w1, (tr ++ [CallDescribeFileSystem fs (Some e)])%list))
    | None =>
        let '(r2, w2) := getNextGid (gidAllocator d) fs lo hi w1 in
        match r2 with
        | inl e =>
            (inl (Propagated e),
             (w2, (tr ++ [CallDescribeFileSystem fs None;
                          CallGetNextGid fs lo hi (inl e)])%list))
        | inr gid =>
            let '(u, w3) := uuid_New env w2 in
            let opts := create_options d req fs gid u in
            let '(r4, w4) := CreateAccessPoint (cloud d) (Name req) opts w3 in
            match r4 with
            | inl e =>
                (inl (Status (create_failure_code e)
                        (match e with
                         | ErrAccessDenied => MsgAccessDenied e
                         | ErrAlreadyExists => MsgAccessPointAlreadyExists
                         | _ => MsgFailedToCreateAccessPoint fs e
                         end)),
                 (releaseGid (gidAllocator d) fs gid w4,
                  (tr ++ [CallDescribeFileSystem fs None;
                          CallGetNextGid fs lo hi (inr gid);
                          CallUuidNew u;
                          CallCreateAccessPoint (Name req) opts (inl e);
                          CallReleaseGid fs gid])%list))
            | inr ap =>
                (inr {| Volume_ :=
                          {| CapacityBytes := GetRequiredBytes (CapacityRange_ req);
                             VolumeId := fs ++ "::" ++ AccessPointId ap;
                             VolumeContext := ∅ |} |},
                 (w4, (tr ++ [CallDescribeFileSystem fs None;
                              CallGetNextGid fs lo hi (inr gid);
                              CallUuidNew u;
                              CallCreateAccessPoint (Name req) opts (inr ap)])%list))
            end
        end
    end.
Proof.
  intros Hchk Hfsid Hrange. pass_checks Hchk.
  assert (fs0 = fs) as -> by congruence.
  assert (forall k : Z -> Z -> M W CreateVolumeResponse,
    (gidMin <-
       match Parameters req !! GidMin with
       | Some value =>
           match Go.Atoi value with
           | None => fail (Status InvalidArgument (MsgFailedToParse GidMin value))
           | Some gidMin =>
               if gidMin <=? 0
               then fail (Status InvalidArgument (MsgMustBeGreaterThanZero GidMin))
               else ret gidMin
           end
       | None => ret 0
       end ;;
     gidMax <-
       match Parameters req !! GidMax with
       | Some value =>
           if gidMin =? 0 then fail (Status InvalidArgument (MsgMissingParameter GidMin))
           else
             match Go.Atoi value with
             | None => fail (Status InvalidArgument (MsgFailedToParse GidMax value))
             | Some gidMax =>
                 if gidMax <=? gidMin
                 then fail (Status InvalidArgument (MsgMustBeGreaterThan GidMax GidMin))
                 else ret gidMax
             end
       | None =>
           if negb (gidMin =? 0) then fail (Status InvalidArgument (MsgMissingParameter GidMin))
           else ret 0
       end ;;
     let '(gidMin, gidMax) :=
       if (gidMin =? 0) && (gidMax =? 0) then (DefaultGidMin, DefaultGidMax)
       else (gidMin, gidMax) in
     k gidMin gidMax) (w, tr) = k lo hi (w, tr)) as Hgid.
  { intros k. unfold gid_range in Hrange. unfold bind at 1.
    destruct (Parameters req !! GidMin) as [a|].
    - destruct (Parameters req !! GidMax) as [b|]; [|discriminate].
      destruct (Go.Atoi a) as [x|]; [|discriminate].
      destruct (Go.Atoi b) as [y|]; [|discriminate].
      destruct (Z.ltb_spec 0 x); [|discriminate].
      destruct (Z.ltb_spec x y); [|discriminate].
      simpl in Hrange. simplify_eq.
      rewrite (proj2 (Z.leb_gt lo 0)) by lia.
      unfold ret at 1. unfold bind at 1.
      rewrite (proj2 (Z.eqb_neq lo 0)) by lia.
      rewrite (proj2 (Z.leb_gt hi lo)) by lia.
      unfold ret at 1. cbn [andb]. reflexivity.
    - destruct (Parameters req !! GidMax) as [b|]; [discriminate|].
      simplify_eq. reflexivity. }
  rewrite Hgid. clear Hgid.
  unfold bind, call, call_, ret, fail. cbn [fst snd].
  destruct (DescribeFileSystem (cloud d) fs w) as [[e|] w1]; cbn [fst snd].
  { destruct e; reflexivity. }
  destruct (getNextGid (gidAllocator d) fs lo hi w1) as [[e|gid] w2]; cbn [fst snd];
    [by rewrite <- !app_assoc|].
  destruct (uuid_New env w2) as [u w3]; cbn [fst snd].
  unfold RootDirPrefix. fold (create_options d req fs gid u).
  destruct (CreateAccessPoint (cloud d) (Name req) (create_options d req fs gid u) w3)
    as [[e|ap] w4]; cbn [fst snd].
  - rewrite <- !app_assoc. destruct e; reflexivity.
  - rewrite <- !app_assoc. reflexivity.
Qed.

End CreateVolumeRun.

(** ** CreateVolume: the properties *)

(** C7: CreateVolume checks its request in the fixed order name, then
    capabilities (at least one, all supported), then provisioningMode
    (present and equal to "efs-ap"), then fileSystemId (present and not
    blank).  The first check that fails answers InvalidArgument with its
    own message, whatever the later fields hold, and no collaborator is
    called: the world and the trace are unchanged. *)
Theorem C7_validation_order {W} (env : Env W) (d : Driver W)
    (req : CreateVolumeRequest) (st : St W) :
  (Name req = "" -> rejects env d req st MsgVolumeNameNotProvided)
  /\ (Name req <> "" ->
      (VolumeCapabilities req = [] -> rejects env d req st MsgVolumeCapsNotProvided)
      /\ (VolumeCapabilities req <> [] ->
          (isValidVolumeCapabilities env (VolumeCapabilities req) = false ->
           rejects env d req st MsgVolumeCapsNotSupported)
          /\ (isValidVolumeCapabilities env (VolumeCapabilities req) = true ->
              (Parameters req !! "provisioningMode" = None ->
               rejects env d req st (MsgMissingParameter "provisioningMode"))
              /\ (forall mode, Parameters req !! "provisioningMode" = Some mode ->
                  mode <> "efs-ap" ->
                  rejects env d req st (MsgProvisioningModeNotSupported mode))
              /\ (Parameters req !! "provisioningMode" = Some "efs-ap" ->
                  (Parameters req !! "fileSystemId" = None ->
                   rejects env d req st (MsgMissingParameter "fileSystemId"))
                  /\ (forall fs, Parameters req !! "fileSystemId" = Some fs ->
                      Go.TrimSpace_is_empty fs = true ->
                      rejects env d req st (MsgParameterCannotBeEmpty "fileSystemId")))))).
Proof.
  unfold rejects.
  split; [|intros Hname; split; [|intros Hcaps; split; [|intros Hvalid; split;
    [|split; [|intros Hmode; split]]]]].
  - intros Hname. apply CreateVolume_rejects. unfold first_failed_check.
    by rewrite decide_True.
  - intros Hcaps. apply CreateVolume_rejects. unfold first_failed_check.
    rewrite decide_False by done. by rewrite decide_True.
  - intros Hvalid. apply CreateVolume_rejects. unfold first_failed_check.
    rewrite !decide_False by done. by rewrite Hvalid.
  - intros Hmode. apply CreateVolume_rejects. unfold first_failed_check.
    rewrite !decide_False by done. rewrite Hvalid. cbn [negb].
    fold ProvisioningMode in Hmode. by rewrite Hmode.
  - intros mode Hmode Hne. apply CreateVolume_rejects. unfold first_failed_check.
    rewrite !decide_False by done. rewrite Hvalid. cbn [negb].
    fold ProvisioningMode in Hmode. rewrite Hmode. by rewrite decide_False.
  - intros Hfs. apply CreateVolume_rejects. unfold first_failed_check.
    rewrite !decide_False by done. rewrite Hvalid. cbn [negb].
    fold ProvisioningMode in Hmode. rewrite Hmode. rewrite decide_True by done.
    fold FsId in Hfs. by rewrite Hfs.
  - intros fs Hfs Hblank. apply CreateVolume_rejects. unfold first_failed_check.
    rewrite !decide_False by done. rewrite Hvalid. cbn [negb].
    fold ProvisioningMode in Hmode. rewrite Hmode. rewrite decide_True by done.
    fold FsId in Hfs. rewrite Hfs. by rewrite Hblank.
Qed.

(** The maps [gid_range] refuses are those with one bound only, a bound
    that is no integer, a start that is not positive, or an end that is
    not above the start. *)
Lemma gid_range_None (params : gmap string string) :
  gid_range params = None <->
  (is_Some (params !! "gidRangeStart") /\ params !! "gidRangeEnd" = None)
  \/ (params !! "gidRangeStart" = None /\ is_Some (params !! "gidRangeEnd"))
  \/ (exists a, params !! "gidRangeStart" = Some a /\ Go.Atoi a = None)
  \/ (exists b, params !! "gidRangeEnd" = Some b /\ Go.Atoi b = None)
  \/ (exists a lo, params !! "gidRangeStart" = Some a /\ Go.Atoi a = Some lo /\ lo <= 0)
  \/ (exists a b lo hi, params !! "gidRangeStart" = Some a /\ params !! "gidRangeEnd" = Some b
        /\ Go.Atoi a = Some lo /\ Go.Atoi b = Some hi /\ hi <= lo).
Proof.
  unfold gid_range. change "gidRangeStart" with GidMin. change "gidRangeEnd" with GidMax.
  destruct (params !! GidMin) as [a|], (params !! GidMax) as [b|].
  1: destruct (Go.Atoi a) as [lo|] eqn:Ha, (Go.Atoi b) as [hi|] eqn:Hb.
  1: destruct (Z.ltb_spec 0 lo), (Z.ltb_spec lo hi); cbn [andb].
  all: split; intros Hx; try discriminate; try reflexivity.
  all: try (destruct Hx as [[[? ?] ?]|[[? [? ?]]|[(? & ? & ?)|[(? & ? & ?)|[(? & ? & ? & ? & ?)
             |(? & ? & ? & ? & ? & ? & ? & ? & ?)]]]]]; simplify_eq; lia).
  - do 5 right. exists a, b, lo, hi. repeat split; try done; try lia.
  - do 4 right. left. exists a, lo. repeat split; try done; try lia.
  - do 4 right. left. exists a, lo. repeat split; try done; try lia.
  - do 3 right. left. by exists b.
  - do 2 right. left. by exists a.
  - do 2 right. left. by exists a.
  - left. split; [by eexists|done].
  - right. left. split; [done|by eexists].
Qed.

(** C2: the identity-range parameters gidRangeStart and gidRangeEnd must
    be both present or both absent, and when present both must parse as
    integers with gidRangeStart > 0 and gidRangeEnd > gidRangeStart: every
    request whose parameters violate this ([gid_range] refuses them) is
    answered InvalidArgument with no collaborator called; and when
    neither is present, a request that passes the checks and whose file
    system exists has its identity allocated from the default range 50000
    to 7000000. *)
Theorem C2_gid_range_parameters {W} (env : Env W) (d : Driver W)
    (req : CreateVolumeRequest) (w : W) (tr : list Event) :
  (gid_range (Parameters req) = None ->
   exists m, CreateVolume env d req (w, tr) = (inl (Status InvalidArgument m), (w, tr)))
  /\ (forall fs w1,
        Parameters req !! "gidRangeStart" = None ->
        Parameters req !! "gidRangeEnd" = None ->
        first_failed_check env req = None ->
        Parameters req !! "fileSystemId" = Some fs ->
        DescribeFileSystem (cloud d) fs w = (None, w1) ->
        exists res w' rest,
          CreateVolume env d req (w, tr) =
            (res, (w', (tr ++ CallDescribeFileSystem fs None
                           :: CallGetNextGid fs 50000 7000000
                                (fst (getNextGid (gidAllocator d) fs 50000 7000000 w1))
                           :: rest)%list))).
Proof.
  split.
  - intros Hrange. destruct (first_failed_check env req) as [m|] eqn:Hchk.
    + exists m. by apply CreateVolume_rejects.
    + by apply CreateVolume_range_rejected.
  - intros fs w1 Hmin Hmax Hchk Hfs Hdesc.
    rewrite (CreateVolume_exec env d req fs 50000 7000000 w tr Hchk Hfs).
    2:{ unfold gid_range. fold GidMin in Hmin. fold GidMax in Hmax. by rewrite Hmin, Hmax. }
    rewrite Hdesc.
    destruct (getNextGid (gidAllocator d) fs 50000 7000000 w1) as [[e|gid] w2]; cbn [fst].
    + by eexists _, _, [].
    + destruct (uuid_New env w2) as [u w3].
      destruct (CreateAccessPoint (cloud d) (Name req) (create_options d req fs gid u) w3)
        as [[e|ap] w4]; by eexists _, _, _.
Qed.

(** ** The decoder on identifiers made by CreateVolume *)

Lemma Split_colon_app (a r : string) :
  colon_free a = true -> Go.Split_colon (a ++ String ":" r) = a :: Go.Split_colon r.
Proof.
  induction a as [|c a IH]; intros Hfree; [reflexivity|].
  cbn in Hfree. apply andb_true_iff in Hfree as [Hc Hfree].
  change (String c a ++ String ":" r) with (String c (a ++ String ":" r)).
  cbn [Go.Split_colon].
  destruct (Ascii.eqb c ":"); [discriminate|].
  by rewrite IH.
Qed.

Lemma Split_colon_free (a : string) :
  colon_free a = true -> Go.Split_colon a = [a].
Proof.
  induction a as [|c a IH]; intros Hfree; [reflexivity|].
  cbn in Hfree. apply andb_true_iff in Hfree as [Hc Hfree].
  cbn [Go.Split_colon].
  destruct (Ascii.eqb c ":"); [discriminate|]. by rewrite IH.
Qed.

Lemma parseVolumeId_spec_encode (fs ap : string) :
  fs <> "" -> ap <> "" -> colon_free fs = true -> colon_free ap = true ->
  parseVolumeId_spec (fs ++ "::" ++ ap) = inr (fs, "", ap).
Proof.
  intros Hfs Hap Hfs_free Hap_free. unfold parseVolumeId_spec.
  change (fs ++ "::" ++ ap) with (fs ++ String ":" ("" ++ String ":" ap)).
  rewrite !Split_colon_app by done.
  rewrite Split_colon_free by done.
  by rewrite !decide_False.
Qed.

(** Whatever the decoder, some identifier made by CreateVolume does not
    decode to the fields it was made from: ["a::b::c"] is made from
    [("a", "b::c")] and from [("a::b", "c")]. *)
Lemma no_decoder_inverts_every_identifier
    (parse : string -> error + (string * string * string)) :
  ~ (forall fs ap, Go.TrimSpace_is_empty fs = false ->
       parse (fs ++ "::" ++ ap) = inr (fs, "", ap)).
Proof.
  intros H.
  pose proof (H "a" "b::c" eq_refl : parse "a::b::c" = inr ("a", "", "b::c")) as H1.
  pose proof (H "a::b" "c" eq_refl : parse "a::b::c" = inr ("a::b", "", "c")) as H2.
  rewrite H1 in H2. discriminate.
Qed.

Lemma TrimSpace_is_empty_false_nonempty (s : string) :
  Go.TrimSpace_is_empty s = false -> s <> "".
Proof. by intros H ->. Qed.

(** C3 (as it holds): for every CreateVolume request that passes the
    checks and whose identity range is well formed, where the file system
    exists, the allocator yields an identity and the cloud creates the
    access point, the response's volume identifier is fileSystemId ++ "::"
    ++ accessPointId, its capacity is the requested capacity and its
    volume context is empty; and that identifier decodes to
    (fileSystemId, "", accessPointId) when the access-point identifier is
    not empty and neither identifier holds the delimiter ":". *)
Theorem C3_create_response {W} (env : Env W) (d : Driver W)
    (req : CreateVolumeRequest) (fs : string) (lo hi : Z) (tr : list Event)
    (w w1 w2 w3 w4 : W) (gid : Z) (u : string) (ap : AccessPoint) :
  first_failed_check env req = None ->
  Parameters req !! "fileSystemId" = Some fs ->
  gid_range (Parameters req) = Some (lo, hi) ->
  DescribeFileSystem (cloud d) fs w = (None, w1) ->
  getNextGid (gidAllocator d) fs lo hi w1 = (inr gid, w2) ->
  uuid_New env w2 = (u, w3) ->
  CreateAccessPoint (cloud d) (Name req) (create_options d req fs gid u) w3 = (inr ap, w4) ->
  (exists tr',
     CreateVolume env d req (w, tr) =
       (inr {| Volume_ :=
                 {| CapacityBytes := GetRequiredBytes (CapacityRange_ req);
                    VolumeId := fs ++ "::" ++ AccessPointId ap;
                    VolumeContext := ∅ |} |},
        (w4, tr')))
  /\ (AccessPointId ap <> "" -> colon_free fs = true ->
      colon_free (AccessPointId ap) = true ->
      parseVolumeId_spec (fs ++ "::" ++ AccessPointId ap) = inr (fs, "", AccessPointId ap)).
Proof.
  intros Hchk Hfs Hrange Hdesc Hgid Huuid Hcreate. split.
  - rewrite (CreateVolume_exec env d req fs lo hi w tr Hchk Hfs Hrange).
    rewrite Hdesc, Hgid, Huuid. cbn zeta. rewrite Hcreate. by eexists.
  - intros Hap Hfs_free Hap_free. apply parseVolumeId_spec_encode; try done.
    apply TrimSpace_is_empty_false_nonempty.
    destruct (first_failed_check_None env req Hchk) as (_ & _ & _ & _ & fs' & Hfs' & Hblank).
    fold FsId in Hfs. by simplify_eq.
Qed.

(** C3 fails as stated: a request for file system ["fs:1"] passes the
    checks, the file system exists, identity 50000 is allocated and the
    access point ["ap-1"] is created, yet the identifier returned,
    ["fs:1::ap-1"], does not decode to [("fs:1", "", "ap-1")]. *)
Lemma C3_counterexample :
  let env := scripted_env all_good parseVolumeId_spec in
  let d := scripted_driver all_good no_entries false in
  let req := request_on "fs:1" no_entries in
  first_failed_check env req = None
  /\ gid_range (Parameters req) = Some (50000, 7000000)
  /\ (exists resp st',
        CreateVolume env d req (0%nat, []) = (inr resp, st')
        /\ VolumeId (Volume_ resp) = "fs:1::ap-1"
        /\ parseVolumeId_spec (VolumeId (Volume_ resp)) <> inr ("fs:1", "", "ap-1")).
Proof.
  cbn zeta. split; [by vm_compute|]. split; [by vm_compute|].
  eexists _, _. split; [vm_compute; reflexivity|]. split; [reflexivity|].
  vm_compute. discriminate.
Qed.

(** Scenario A of the specification: file system ["fs-1"], access point
    ["ap-1"]. *)
Lemma C3_create_response_witness :
  exists tr',
    CreateVolume (scripted_env all_good parseVolumeId_spec) (scripted_driver all_good no_entries false)
      (request_on "fs-1" no_entries) (0%nat, []) =
      (inr {| Volume_ :=
                {| CapacityBytes := 1073741824;
                   VolumeId := "fs-1::ap-1";
                   VolumeContext := ∅ |} |},
       (4%nat, tr'))
    /\ parseVolumeId_spec "fs-1::ap-1" = inr ("fs-1", "", "ap-1").
Proof.
  destruct (C3_create_response
              (scripted_env all_good parseVolumeId_spec) (scripted_driver all_good no_entries false)
              (request_on "fs-1" no_entries) "fs-1" 50000 7000000 [] 0%nat 1%nat 2%nat 3%nat 4%nat 50000
              "123e4567-e89b-12d3-a456-426614174000"
              {| AccessPointId := "ap-1"; AccessPointRootDir := "/efs-csi-ap-50000-x" |}
              ltac:(vm_compute; reflexivity) ltac:(vm_compute; reflexivity)
              ltac:(vm_compute; reflexivity) eq_refl eq_refl eq_refl eq_refl)
    as [[tr' Hrun] Hdecode].
  exists tr'. split; [exact Hrun|].
  apply Hdecode; [discriminate|reflexivity|reflexivity].
Defined.

(** C4: when an identity was allocated and the cloud's access-point
    creation then fails with [e], CreateVolume releases that identity on
    the same file system, once, after the failed call and before it
    returns, and answers with the code [create_failure_code e]:
    Unauthenticated for AccessDenied, AlreadyExists for AlreadyExists,
    Internal otherwise.  The trace shows one creation call only: the
    failed call is not retried. *)
Theorem C4_create_failure_releases {W} (env : Env W) (d : Driver W)
    (req : CreateVolumeRequest) (fs : string) (lo hi : Z) (tr : list Event)
    (w w1 w2 w3 w4 : W) (gid : Z) (u : string) (e : error) :
  first_failed_check env req = None ->
  Parameters req !! "fileSystemId" = Some fs ->
  gid_range (Parameters req) = Some (lo, hi) ->
  DescribeFileSystem (cloud d) fs w = (None, w1) ->
  getNextGid (gidAllocator d) fs lo hi w1 = (inr gid, w2) ->
  uuid_New env w2 = (u, w3) ->
  CreateAccessPoint (cloud d) (Name req) (create_options d req fs gid u) w3 = (inl e, w4) ->
  exists m,
    CreateVolume env d req (w, tr) =
      (inl (Status (create_failure_code e) m),
       (releaseGid (gidAllocator d) fs gid w4,
        (tr ++ [CallDescribeFileSystem fs None;
                CallGetNextGid fs lo hi (inr gid);
                CallUuidNew u;
                CallCreateAccessPoint (Name req) (create_options d req fs gid u) (inl e);
                CallReleaseGid fs gid])%list)).
Proof.
  intros Hchk Hfs Hrange Hdesc Hgid Huuid Hcreate.
  rewrite (CreateVolume_exec env d req fs lo hi w tr Hchk Hfs Hrange).
  rewrite Hdesc, Hgid, Huuid. cbn zeta. rewrite Hcreate. by eexists.
Qed.

(** The cloud answers AlreadyExists: identity 50000 is released on
    ["fs-1"] and the code is AlreadyExists. *)
Lemma C4_create_failure_releases_witness :
  exists m,
    CreateVolume (scripted_env all_good parseVolumeId_spec)
      (scripted_driver (with_create (inl ErrAlreadyExists) all_good) no_entries false)
      (request_on "fs-1" no_entries) (0%nat, []) =
      (inl (Status AlreadyExists m),
       (5%nat,
        [CallDescribeFileSystem "fs-1" None;
         CallGetNextGid "fs-1" 50000 7000000 (inr 50000);
         CallUuidNew "123e4567-e89b-12d3-a456-426614174000";
         CallCreateAccessPoint "v1"
           (create_options (scripted_driver (with_create (inl ErrAlreadyExists) all_good)
                              no_entries false)
              (request_on "fs-1" no_entries) "fs-1" 50000
              "123e4567-e89b-12d3-a456-426614174000")
           (inl ErrAlreadyExists);
         CallReleaseGid "fs-1" 50000])).
Proof.
  exact (C4_create_failure_releases
           (scripted_env all_good parseVolumeId_spec)
           (scripted_driver (with_create (inl ErrAlreadyExists) all_good) no_entries false)
           (request_on "fs-1" no_entries) "fs-1" 50000 7000000 []
           0%nat 1%nat 2%nat 3%nat 4%nat 50000
           "123e4567-e89b-12d3-a456-426614174000" ErrAlreadyExists
           ltac:(vm_compute; reflexivity) ltac:(vm_compute; reflexivity)
           ltac:(vm_compute; reflexivity) eq_refl eq_refl eq_refl eq_refl).
Defined.

(** Every successful run of CreateVolume went through the four calls
    below, in this order and no other. *)
Lemma CreateVolume_success_inv {W} (env : Env W) (d : Driver W)
    (req : CreateVolumeRequest) (w w' : W) (tr tr' : list Event)
    (resp : CreateVolumeResponse) :
  CreateVolume env d req (w, tr) = (inr resp, (w', tr')) ->
  exists fs lo hi gid u ap,
    Parameters req !! FsId = Some fs
    /\ gid_range (Parameters req) = Some (lo, hi)
    /\ tr' = (tr ++ [CallDescribeFileSystem fs None;
                     CallGetNextGid fs lo hi (inr gid);
                     CallUuidNew u;
                     CallCreateAccessPoint (Name req) (create_options d req fs gid u)
                       (inr ap)])%list
    /\ resp = {| Volume_ :=
                   {| CapacityBytes := GetRequiredBytes (CapacityRange_ req);
                      VolumeId := fs ++ "::" ++ AccessPointId ap;
                      VolumeContext := ∅ |} |}.
Proof.
  intros Hrun.
  destruct (first_failed_check env req) as [m|] eqn:Hchk.
  { rewrite (CreateVolume_rejects env d req m _ Hchk) in Hrun. discriminate. }
  destruct (gid_range (Parameters req)) as [[lo hi]|] eqn:Hrange.
  2:{ destruct (CreateVolume_range_rejected env d req (w, tr) Hchk Hrange) as [m Hm].
      rewrite Hm in Hrun. discriminate. }
  destruct (first_failed_check_None env req Hchk) as (_ & _ & _ & _ & fs & Hfs & _).
  rewrite (CreateVolume_exec env d req fs lo hi w tr Hchk Hfs Hrange) in Hrun.
  destruct (DescribeFileSystem (cloud d) fs w) as [[e|] w1]; [discriminate|].
  destruct (getNextGid (gidAllocator d) fs lo hi w1) as [[e|gid] w2]; [discriminate|].
  destruct (uuid_New env w2) as [u w3]. cbn zeta in Hrun.
  destruct (CreateAccessPoint (cloud d) (Name req) (create_options d req fs gid u) w3)
    as [[e|ap] w4]; [discriminate|].
  exists fs, lo, hi, gid, u, ap. by simplify_eq.
Qed.

(** C8: for every successful CreateVolume, the options passed to the
    cloud's access-point creation have as root directory path basePath ++
    "/" ++ "efs-csi-ap" ++ "-" ++ the allocated identity in decimal ++ "-"
    ++ the suffix the unique-identifier generator produced during this
    very run, where basePath is the empty string when the parameter is
    absent, and have uid and gid both equal to the allocated identity. *)
Theorem C8_root_directory_path {W} (env : Env W) (d : Driver W)
    (req : CreateVolumeRequest) (w w' : W) (tr : list Event)
    (resp : CreateVolumeResponse) :
  CreateVolume env d req (w, []) = (inr resp, (w', tr)) ->
  exists fs lo hi gid u opts ap,
    tr = [CallDescribeFileSystem fs None;
          CallGetNextGid fs lo hi (inr gid);
          CallUuidNew u;
          CallCreateAccessPoint (Name req) opts (inr ap)]
    /\ DirectoryPath opts =
         match Parameters req !! "basePath" with
         | Some basePath => basePath
         | None => ""
         end ++ "/" ++ "efs-csi-ap" ++ "-" ++ Go.Itoa gid ++ "-" ++ u
    /\ Uid opts = gid
    /\ Gid opts = gid.
Proof.
  intros Hrun.
  destruct (CreateVolume_success_inv env d req w w' [] tr resp Hrun)
    as (fs & lo & hi & gid & u & ap & _ & _ & -> & _).
  exists fs, lo, hi, gid, u, (create_options d req fs gid u), ap.
  repeat split.
Qed.

(** The successful run of scenario A and the options of its creation
    call. *)
Lemma C8_root_directory_path_witness :
  exists fs lo hi gid u opts ap,
    [CallDescribeFileSystem "fs-1" None;
     CallGetNextGid "fs-1" 50000 7000000 (inr 50000);
     CallUuidNew "123e4567-e89b-12d3-a456-426614174000";
     CallCreateAccessPoint "v1"
       (create_options (scripted_driver all_good no_entries false)
          (request_on "fs-1" no_entries) "fs-1" 50000
          "123e4567-e89b-12d3-a456-426614174000")
       (inr {| AccessPointId := "ap-1"; AccessPointRootDir := "/efs-csi-ap-50000-x" |})]
    = [CallDescribeFileSystem fs None;
       CallGetNextGid fs lo hi (inr gid);
       CallUuidNew u;
       CallCreateAccessPoint (Name (request_on "fs-1" no_entries)) opts (inr ap)]
    /\ DirectoryPath opts =
         match Parameters (request_on "fs-1" no_entries) !! "basePath" with
         | Some basePath => basePath
         | None => ""
         end ++ "/" ++ "efs-csi-ap" ++ "-" ++ Go.Itoa gid ++ "-" ++ u
    /\ Uid opts = gid
    /\ Gid opts = gid.
Proof.
  exact (C8_root_directory_path
           (scripted_env all_good parseVolumeId_spec)
           (scripted_driver all_good no_entries false)
           (request_on "fs-1" no_entries) 0%nat 4%nat _ _
           ltac:(vm_compute; reflexivity)).
Defined.

(** ** DeleteVolume *)

Ltac in_trace H :=
  repeat (apply elem_of_cons in H as [H|H]; [simplify_eq|]);
  try (by apply elem_of_nil in H).

Ltac run_calls H :=
  unfold bind, call, call_, ret, fail in H; cbn [fst snd app] in H;
  repeat (case_match; simplify_eq; cbn [fst snd app] in * ).

(** C1 (as it holds): for every DeleteVolume request with a non-empty
    volume identifier, if the identifier fails to decode the answer is
    success, with no collaborator called; and if it decodes with a
    non-empty access-point identifier and the cloud reports NotFound at
    the describe-access-point step or at the delete-access-point step,
    the answer is success. *)
Theorem C1_delete_idempotent {W} (env : Env W) (d : Driver W)
    (req : DeleteVolumeRequest) (w : W) :
  DeleteVolumeId req <> "" ->
  (forall e tr, parseVolumeId env (DeleteVolumeId req) = inl e ->
     DeleteVolume env d req (w, tr) = (inr mkDeleteVolumeResponse, (w, tr)))
  /\ (forall fs sub ap res w' tr,
        parseVolumeId env (DeleteVolumeId req) = inr (fs, sub, ap) -> ap <> "" ->
        DeleteVolume env d req (w, []) = (res, (w', tr)) ->
        CallDescribeAccessPoint ap (inl ErrNotFound) ∈ tr
        \/ CallDeleteAccessPoint ap (Some ErrNotFound) ∈ tr ->
        res = inr mkDeleteVolumeResponse).
Proof.
  intros Hid. unfold DeleteVolume.
  rewrite decide_False by done. split.
  - intros e tr ->. reflexivity.
  - intros fs sub ap res w' tr Hparse Hap Hrun Hin. rewrite Hparse in Hrun.
    rewrite decide_True in Hrun by done. cbn zeta in Hrun.
    run_calls Hrun; try reflexivity; exfalso; destruct Hin as [Hin|Hin]; in_trace Hin.
Qed.

(** C1 fails as stated: the empty identifier fails to decode, yet
    DeleteVolume answers it with InvalidArgument, not with success. *)
Lemma C1_counterexample :
  let env := scripted_env all_good parseVolumeId_spec in
  let d := scripted_driver all_good no_entries true in
  let req := {| DeleteVolumeId := "" |} in
  parseVolumeId env (DeleteVolumeId req) = inl (ErrOther "InvalidFormat")
  /\ DeleteVolume env d req (0%nat, []) =
       (inl (Status InvalidArgument MsgVolumeIdNotProvided), (0%nat, [])).
Proof. split; reflexivity. Qed.

(** An identifier that does not decode, and a volume whose access point
    is gone when its deletion is asked for. *)
Lemma C1_delete_idempotent_witness :
  DeleteVolume (scripted_env all_good parseVolumeId_spec)
    (scripted_driver (with_delete (Some ErrNotFound) all_good) no_entries true)
    {| DeleteVolumeId := "not-a-volume-id" |} (0%nat, []) =
    (inr mkDeleteVolumeResponse, (0%nat, []))
  /\ fst (DeleteVolume (scripted_env all_good parseVolumeId_spec)
            (scripted_driver (with_delete (Some ErrNotFound) all_good) no_entries true)
            {| DeleteVolumeId := "fs-1::ap-1" |} (0%nat, [])) =
     inr mkDeleteVolumeResponse.
Proof.
  split.
  - exact (proj1 (C1_delete_idempotent
                    (scripted_env all_good parseVolumeId_spec)
                    (scripted_driver (with_delete (Some ErrNotFound) all_good) no_entries true)
                    {| DeleteVolumeId := "not-a-volume-id" |} 0%nat ltac:(discriminate))
                 (ErrOther "InvalidFormat") [] ltac:(vm_compute; reflexivity)).
  - apply (proj2 (C1_delete_idempotent
                    (scripted_env all_good parseVolumeId_spec)
                    (scripted_driver (with_delete (Some ErrNotFound) all_good) no_entries true)
                    {| DeleteVolumeId := "fs-1::ap-1" |} 0%nat ltac:(discriminate))
                 "fs-1" "" "ap-1" _ 7%nat
                 [CallDescribeAccessPoint "ap-1"
                    (inr {| AccessPointId := "ap-1";
                            AccessPointRootDir := "/efs-csi-ap-50000-x" |});
                  CallMakeDir "/var/lib/csi/pv/ap-1" None;
                  CallMount "fs-1" "/var/lib/csi/pv/ap-1" "efs" ["tls"] None;
                  CallOsRemoveAll "/var/lib/csi/pv/ap-1/efs-csi-ap-50000-x" None;
                  CallUnmount "/var/lib/csi/pv/ap-1" None;
                  CallOsRemoveAll "/var/lib/csi/pv/ap-1" None;
                  CallDeleteAccessPoint "ap-1" (Some ErrNotFound)]).
    + vm_compute; reflexivity.
    + discriminate.
    + vm_compute; reflexivity.
    + right. do 6 apply list_elem_of_further. apply list_elem_of_here.
Defined.

(** With the root-directory block on, a NotFound at the last step still
    gives success. *)
Example DeleteVolume_not_found_at_delete :
  DeleteVolume (scripted_env all_good parseVolumeId_spec)
    (scripted_driver (with_delete (Some ErrNotFound) all_good) no_entries true)
    {| DeleteVolumeId := "fs-1::ap-1" |} (0%nat, []) =
  (inr mkDeleteVolumeResponse,
   (7%nat,
    [CallDescribeAccessPoint "ap-1"
       (inr {| AccessPointId := "ap-1"; AccessPointRootDir := "/efs-csi-ap-50000-x" |});
     CallMakeDir "/var/lib/csi/pv/ap-1" None;
     CallMount "fs-1" "/var/lib/csi/pv/ap-1" "efs" ["tls"] None;
     CallOsRemoveAll "/var/lib/csi/pv/ap-1/efs-csi-ap-50000-x" None;
     CallUnmount "/var/lib/csi/pv/ap-1" None;
     CallOsRemoveAll "/var/lib/csi/pv/ap-1" None;
     CallDeleteAccessPoint "ap-1" (Some ErrNotFound)])).
Proof. vm_compute. reflexivity. Qed.

Example DeleteVolume_not_found_at_describe :
  DeleteVolume (scripted_env all_good parseVolumeId_spec)
    (scripted_driver (with_describe (inl ErrNotFound) all_good) no_entries true)
    {| DeleteVolumeId := "fs-1::ap-1" |} (0%nat, []) =
  (inr mkDeleteVolumeResponse,
   (1%nat, [CallDescribeAccessPoint "ap-1" (inl ErrNotFound)])).
Proof. vm_compute. reflexivity. Qed.

(** Scenario B of the specification: with root-directory deletion off,
    only the access-point deletion is invoked. *)
Example DeleteVolume_scenario_B :
  DeleteVolume (scripted_env all_good parseVolumeId_spec)
    (scripted_driver all_good no_entries false)
    {| DeleteVolumeId := "fs-1::ap-1" |} (0%nat, []) =
  (inr mkDeleteVolumeResponse, (1%nat, [CallDeleteAccessPoint "ap-1" None])).
Proof. vm_compute. reflexivity. Qed.

(** C5: for every DeleteVolume request whose volume identifier decodes
    successfully but with an empty access-point identifier, the answer is
    NotFound, not success, and no collaborator is called: the world and
    the trace are unchanged.  (A decoder accepts no empty identifier: the
    file-system segment is mandatory.) *)
Theorem C5_empty_access_point_not_found {W} (env : Env W) (d : Driver W)
    (req : DeleteVolumeRequest) (fs sub : string) (st : St W) :
  (forall t, parseVolumeId env "" <> inr t) ->
  parseVolumeId env (DeleteVolumeId req) = inr (fs, sub, "") ->
  DeleteVolume env d req st =
    (inl (Status NotFound (MsgFailedToFindAccessPoint (DeleteVolumeId req))), st).
Proof.
  intros Hempty Hparse. unfold DeleteVolume.
  rewrite decide_False by (intros Hid; rewrite Hid in Hparse; by apply Hempty in Hparse).
  rewrite Hparse. by rewrite decide_False by (intros Hne; by apply Hne).
Qed.

(** The identifier ["fs-1"] names a file system and no access point. *)
Lemma C5_empty_access_point_not_found_witness :
  DeleteVolume (scripted_env all_good parseVolumeId_optional)
    (scripted_driver all_good no_entries true)
    {| DeleteVolumeId := "fs-1" |} (0%nat, []) =
  (inl (Status NotFound (MsgFailedToFindAccessPoint "fs-1")), (0%nat, [])).
Proof.
  exact (C5_empty_access_point_not_found
           (scripted_env all_good parseVolumeId_optional)
           (scripted_driver all_good no_entries true)
           {| DeleteVolumeId := "fs-1" |} "fs-1" "" (0%nat, [])
           ltac:(intros t; vm_compute; discriminate) ltac:(vm_compute; reflexivity)).
Defined.

(** C9: a DeleteVolume request whose volume identifier is empty is
    answered InvalidArgument, whatever the decoder would make of the empty
    string: the check comes before decoding, so the rule that a decoding
    failure gives success does not apply; no collaborator is called. *)
Theorem C9_empty_identifier_rejected {W} (env : Env W) (d : Driver W) (st : St W) :
  DeleteVolume env d {| DeleteVolumeId := "" |} st =
    (inl (Status InvalidArgument MsgVolumeIdNotProvided), st).
Proof.
  unfold DeleteVolume. cbn [DeleteVolumeId].
  rewrite decide_True by reflexivity.
  reflexivity.
Qed.

(** ** ValidateVolumeCapabilities *)

Lemma isValidVolumeCapabilities_Forall {W} (env : Env W) (volCaps : list VolumeCapability) :
  isValidVolumeCapabilities env volCaps = true <->
  Forall (fun c => Mode c ∈ volumeCapAccessModes env) volCaps.
Proof.
  unfold isValidVolumeCapabilities. induction volCaps as [|c l IH]; cbn [forallb].
  - split; [constructor|done].
  - rewrite andb_true_iff, IH, bool_decide_eq_true, Forall_cons. done.
Qed.

(** C10: for every ValidateVolumeCapabilities request with a non-empty
    volume identifier and a non-empty capability list, an identifier that
    fails to decode is answered NotFound, and an identifier that decodes
    is always answered with success, the Confirmed field being set exactly
    when every requested capability is supported; unsupported capabilities
    give no error. *)
Theorem C10_validate_capabilities {W} (env : Env W)
    (req : ValidateVolumeCapabilitiesRequest) (st : St W) :
  ValidateVolumeId req <> "" ->
  ValidateVolumeCapabilities_ req <> [] ->
  (forall e, parseVolumeId env (ValidateVolumeId req) = inl e ->
     ValidateVolumeCapabilities env req st =
       (inl (Status NotFound (MsgVolumeNotFound e)), st))
  /\ (forall t, parseVolumeId env (ValidateVolumeId req) = inr t ->
        exists resp,
          ValidateVolumeCapabilities env req st = (inr resp, st)
          /\ (is_Some (Confirmed resp) <->
              Forall (fun c => Mode c ∈ volumeCapAccessModes env)
                (ValidateVolumeCapabilities_ req))).
Proof.
  intros Hid Hcaps. unfold ValidateVolumeCapabilities.
  rewrite decide_False by done.
  rewrite decide_False by (intros Hlen; apply Hcaps; by apply nil_length_inv).
  split.
  - intros e ->. reflexivity.
  - intros t ->. eexists. split; [reflexivity|]. cbn [Confirmed].
    rewrite <- isValidVolumeCapabilities_Forall.
    destruct (isValidVolumeCapabilities env (ValidateVolumeCapabilities_ req)).
    + split; [done|by eexists].
    + split; [by intros [? ?]|done].
Qed.

(** An identifier that does not decode, and a decodable one asked for
    an access mode outside the supported table. *)
Lemma C10_validate_capabilities_witness :
  ValidateVolumeCapabilities (scripted_env all_good parseVolumeId_spec)
    {| ValidateVolumeId := "not-a-volume-id";
       ValidateVolumeCapabilities_ := [ {| Mode := SINGLE_NODE_WRITER |} ] |} (0%nat, []) =
    (inl (Status NotFound (MsgVolumeNotFound (ErrOther "InvalidFormat"))), (0%nat, []))
  /\ exists resp,
       ValidateVolumeCapabilities (scripted_env all_good parseVolumeId_spec)
         {| ValidateVolumeId := "fs-1::ap-1";
            ValidateVolumeCapabilities_ := [ {| Mode := SINGLE_NODE_READER_ONLY |} ] |}
         (0%nat, []) = (inr resp, (0%nat, []))
       /\ (is_Some (Confirmed resp) <->
           Forall (fun c => Mode c ∈ [SINGLE_NODE_WRITER; MULTI_NODE_MULTI_WRITER])
             [ {| Mode := SINGLE_NODE_READER_ONLY |} ]).
Proof.
  split.
  - exact (proj1 (C10_validate_capabilities
                    (scripted_env all_good parseVolumeId_spec)
                    {| ValidateVolumeId := "not-a-volume-id";
                       ValidateVolumeCapabilities_ := [ {| Mode := SINGLE_NODE_WRITER |} ] |}
                    (0%nat, []) ltac:(discriminate) ltac:(discriminate))
                 (ErrOther "InvalidFormat") ltac:(vm_compute; reflexivity)).
  - exact (proj2 (C10_validate_capabilities
                    (scripted_env all_good parseVolumeId_spec)
                    {| ValidateVolumeId := "fs-1::ap-1";
                       ValidateVolumeCapabilities_ := [ {| Mode := SINGLE_NODE_READER_ONLY |} ] |}
                    (0%nat, []) ltac:(discriminate) ltac:(discriminate))
                 ("fs-1", "", "ap-1") ltac:(vm_compute; reflexivity)).
Defined.

(** ** The root-directory cleanup of DeleteVolume *)

(** When the mount fails, the ephemeral directory is removed before the
    error is returned. *)
Lemma DeleteVolume_mount_failure_removes_dir {W} (env : Env W) (d : Driver W)
    (req : DeleteVolumeRequest) (fs sub ap : string) (accessPoint : AccessPoint)
    (e : error) (r : option error) (w w1 w2 w3 w4 : W) (tr : list Event) :
  let target := "/var/lib/csi/pv" ++ "/" ++ ap in
  DeleteVolumeId req <> "" ->
  parseVolumeId env (DeleteVolumeId req) = inr (fs, sub, ap) -> ap <> "" ->
  deleteAccessPointRootDir d = true ->
  DescribeAccessPoint (cloud d) ap w = (inr accessPoint, w1) ->
  MakeDir (mounter d) target w1 = (None, w2) ->
  Mount (mounter d) fs target "efs" ["tls"] w2 = (Some e, w3) ->
  os_Remove env target w3 = (r, w4) ->
  DeleteVolume env d req (w, tr) =
    (inl (Status Internal (MsgCouldNotMount fs target e)),
     (w4, (tr ++ [CallDescribeAccessPoint ap (inr accessPoint);
                  CallMakeDir target None;
                  CallMount fs target "efs" ["tls"] (Some e);
                  CallOsRemove target r])%list)).
Proof.
  intros target Hid Hparse Hap Hflag Hdesc Hmk Hmount Hrm. unfold DeleteVolume.
  rewrite decide_False by done. rewrite Hparse. rewrite decide_True by done.
  cbn zeta. rewrite Hflag. unfold bind, call, ret, fail. cbn [fst snd].
  rewrite Hdesc. cbn [fst snd]. unfold TempMountPathPrefix. fold target.
  rewrite Hmk. cbn [fst snd]. rewrite Hmount. cbn [fst snd]. rewrite Hrm.
  by rewrite <- !app_assoc.
Qed.

(** When the recursive removal of the root directory fails after the
    mount succeeded, DeleteVolume returns at once: the last call of the
    run is the failed removal. *)
Lemma DeleteVolume_root_dir_failure_returns {W} (env : Env W) (d : Driver W)
    (req : DeleteVolumeRequest) (fs sub ap : string) (accessPoint : AccessPoint)
    (e : error) (w w1 w2 w3 w4 : W) (tr : list Event) :
  let target := "/var/lib/csi/pv" ++ "/" ++ ap in
  DeleteVolumeId req <> "" ->
  parseVolumeId env (DeleteVolumeId req) = inr (fs, sub, ap) -> ap <> "" ->
  deleteAccessPointRootDir d = true ->
  DescribeAccessPoint (cloud d) ap w = (inr accessPoint, w1) ->
  MakeDir (mounter d) target w1 = (None, w2) ->
  Mount (mounter d) fs target "efs" ["tls"] w2 = (None, w3) ->
  os_RemoveAll env (target ++ AccessPointRootDir accessPoint) w3 = (Some e, w4) ->
  DeleteVolume env d req (w, tr) =
    (inl (Status Internal (MsgCouldNotDeleteRootDir (AccessPointRootDir accessPoint) e)),
     (w4, (tr ++ [CallDescribeAccessPoint ap (inr accessPoint);
                  CallMakeDir target None;
                  CallMount fs target "efs" ["tls"] None;
                  CallOsRemoveAll (target ++ AccessPointRootDir accessPoint) (Some e)])%list)).
Proof.
  intros target Hid Hparse Hap Hflag Hdesc Hmk Hmount Hrm. unfold DeleteVolume.
  rewrite decide_False by done. rewrite Hparse. rewrite decide_True by done.
  cbn zeta. rewrite Hflag. unfold bind, call, ret, fail. cbn [fst snd].
  rewrite Hdesc. cbn [fst snd]. unfold TempMountPathPrefix. fold target.
  rewrite Hmk. cbn [fst snd]. rewrite Hmount. cbn [fst snd]. rewrite Hrm.
  by rewrite <- !app_assoc.
Qed.

(** C6 does not hold of the code: with root-directory deletion on, the
    volume ["fs-1::ap-1"] and a failing removal of the access point's
    root directory, the mount at ["/var/lib/csi/pv/ap-1"] succeeded, and
    DeleteVolume returns Internal with neither an unmount of the target
    nor a removal of the ephemeral directory in its trace. *)
Theorem C6_mount_left_behind :
  let env := scripted_env root_dir_removal_fails parseVolumeId_spec in
  let d := scripted_driver root_dir_removal_fails no_entries true in
  let target := "/var/lib/csi/pv/ap-1" in
  let tr :=
    [CallDescribeAccessPoint "ap-1"
       (inr {| AccessPointId := "ap-1"; AccessPointRootDir := "/efs-csi-ap-50000-x" |});
     CallMakeDir target None;
     CallMount "fs-1" target "efs" ["tls"] None;
     CallOsRemoveAll "/var/lib/csi/pv/ap-1/efs-csi-ap-50000-x"
       (Some (ErrOther "permission denied"))] in
  DeleteVolume env d {| DeleteVolumeId := "fs-1::ap-1" |} (0%nat, []) =
    (inl (Status Internal
            (MsgCouldNotDeleteRootDir "/efs-csi-ap-50000-x" (ErrOther "permission denied"))),
     (4%nat, tr))
  /\ existsb (is_unmount_of target) tr = false
  /\ existsb (is_removal_of target) tr = false.
Proof. cbn zeta. repeat split; vm_compute; reflexivity. Qed.

(** ** Witnesses for the request checks and the identity range *)

(** An empty name, an unsupported provisioning mode and a blank file
    system identifier. *)
Lemma C7_validation_order_witness :
  let env := scripted_env all_good parseVolumeId_spec in
  let d := scripted_driver all_good no_entries false in
  rejects env d
    {| Name := ""; CapacityRange_ := None; VolumeCapabilities := [];
       Parameters := no_entries |} (0%nat, []) MsgVolumeNameNotProvided
  /\ rejects env d
       {| Name := "v1"; CapacityRange_ := None;
          VolumeCapabilities := [ {| Mode := SINGLE_NODE_WRITER |} ];
          Parameters := <[ "provisioningMode" := "efs-fs" ]> no_entries |} (0%nat, [])
       (MsgProvisioningModeNotSupported "efs-fs")
  /\ rejects env d (request_on "  " no_entries) (0%nat, [])
       (MsgParameterCannotBeEmpty "fileSystemId").
Proof.
  cbn zeta. split; [|split].
  - exact (proj1 (C7_validation_order
                    (scripted_env all_good parseVolumeId_spec)
                    (scripted_driver all_good no_entries false)
                    {| Name := ""; CapacityRange_ := None; VolumeCapabilities := [];
                       Parameters := no_entries |} (0%nat, [])) eq_refl).
  - destruct (proj2 (C7_validation_order
                       (scripted_env all_good parseVolumeId_spec)
                       (scripted_driver all_good no_entries false)
                       {| Name := "v1"; CapacityRange_ := None;
                          VolumeCapabilities := [ {| Mode := SINGLE_NODE_WRITER |} ];
                          Parameters := <[ "provisioningMode" := "efs-fs" ]> no_entries |}
                       (0%nat, [])) ltac:(discriminate)) as [_ H].
    destruct (H ltac:(discriminate)) as [_ H1].
    destruct (H1 ltac:(vm_compute; reflexivity)) as (_ & H2 & _).
    apply H2; [vm_compute; reflexivity|discriminate].
  - destruct (proj2 (C7_validation_order
                       (scripted_env all_good parseVolumeId_spec)
                       (scripted_driver all_good no_entries false)
                       (request_on "  " no_entries) (0%nat, [])) ltac:(discriminate))
      as [_ H].
    destruct (H ltac:(discriminate)) as [_ H1].
    destruct (H1 ltac:(vm_compute; reflexivity)) as (_ & _ & H2).
    destruct (H2 ltac:(vm_compute; reflexivity)) as [_ H3].
    apply (H3 "  "); vm_compute; reflexivity.
Defined.

(** An end without a start is refused; without bounds the allocator is
    asked for the default range. *)
Lemma C2_gid_range_parameters_witness :
  let env := scripted_env all_good parseVolumeId_spec in
  let d := scripted_driver all_good no_entries false in
  (exists m,
     CreateVolume env d (request_on "fs-1" (<[ "gidRangeEnd" := "100" ]> no_entries))
       (0%nat, []) = (inl (Status InvalidArgument m), (0%nat, [])))
  /\ exists res w' rest,
       CreateVolume env d (request_on "fs-1" no_entries) (0%nat, []) =
         (res, (w', CallDescribeFileSystem "fs-1" None
                      :: CallGetNextGid "fs-1" 50000 7000000 (inr 50000) :: rest)).
Proof.
  cbn zeta. split.
  - apply (proj1 (C2_gid_range_parameters
                    (scripted_env all_good parseVolumeId_spec)
                    (scripted_driver all_good no_entries false)
                    (request_on "fs-1" (<[ "gidRangeEnd" := "100" ]> no_entries))
                    0%nat [])).
    vm_compute. reflexivity.
  - apply (proj2 (C2_gid_range_parameters
                    (scripted_env all_good parseVolumeId_spec)
                    (scripted_driver all_good no_entries false)
                    (request_on "fs-1" no_entries) 0%nat []) "fs-1" 1%nat).
    + vm_compute. reflexivity.
    + vm_compute. reflexivity.
    + vm_compute. reflexivity.
    + vm_compute. reflexivity.
    + reflexivity.
Defined.

(** ** Further properties of CreateVolume *)

(** The runs of CreateVolume: a request refused by a check or for its
    identity range, or one of the four ways the execution phase ends. *)
Lemma CreateVolume_cases {W} (env : Env W) (d : Driver W) (req : CreateVolumeRequest)
    (w w' : W) (tr tr' : list Event) (res : RpcError + CreateVolumeResponse) :
  CreateVolume env d req (w, tr) = (res, (w', tr')) ->
  (exists m, res = inl (Status InvalidArgument m) /\ w' = w /\ tr' = tr
             /\ (first_failed_check env req = None -> gid_range (Parameters req) = None))
  \/ exists fs lo hi,
       first_failed_check env req = None
       /\ Parameters req !! FsId = Some fs
       /\ gid_range (Parameters req) = Some (lo, hi)
       /\ ((exists e w1,
              DescribeFileSystem (cloud d) fs w = (Some e, w1)
              /\ tr' = (tr ++ [CallDescribeFileSystem fs (Some e)])%list
              /\ res = inl (describe_failure e))
           \/ (exists e,
                 tr' = (tr ++ [CallDescribeFileSystem fs None;
                               CallGetNextGid fs lo hi (inl e)])%list
                 /\ res = inl (Propagated e))
           \/ (exists gid u e m,
                 tr' = (tr ++ [CallDescribeFileSystem fs None;
                               CallGetNextGid fs lo hi (inr gid);
                               CallUuidNew u;
                               CallCreateAccessPoint (Name req)
                                 (create_options d req fs gid u) (inl e);
                               CallReleaseGid fs gid])%list
                 /\ res = inl (Status (create_failure_code e) m))
           \/ (exists gid u ap,
                 tr' = (tr ++ [CallDescribeFileSystem fs None;
                               CallGetNextGid fs lo hi (inr gid);
                               CallUuidNew u;
                               CallCreateAccessPoint (Name req)
                                 (create_options d req fs gid u) (inr ap)])%list
                 /\ res = inr {| Volume_ :=
                                  {| CapacityBytes := GetRequiredBytes (CapacityRange_ req);
                                     VolumeId := fs ++ "::" ++ AccessPointId ap;
                                     VolumeContext := ∅ |} |})).
Proof.
  intros Hrun.
  destruct (first_failed_check env req) as [m|] eqn:Hchk.
  { rewrite (CreateVolume_rejects env d req m _ Hchk) in Hrun. simplify_eq.
    left. exists m. by repeat split. }
  destruct (gid_range (Parameters req)) as [[lo hi]|] eqn:Hrange.
  2:{ destruct (CreateVolume_range_rejected env d req (w, tr) Hchk Hrange) as [m Hm].
      rewrite Hm in Hrun. simplify_eq. left. exists m. by repeat split. }
  destruct (first_failed_check_None env req Hchk) as (_ & _ & _ & _ & fs & Hfs & _).
  rewrite (CreateVolume_exec env d req fs lo hi w tr Hchk Hfs Hrange) in Hrun.
  right. exists fs, lo, hi. repeat split; try done.
  destruct (DescribeFileSystem (cloud d) fs w) as [[e|] w1] eqn:Hdesc.
  { simplify_eq. left. by eexists e, _. }
  destruct (getNextGid (gidAllocator d) fs lo hi w1) as [[e|gid] w2].
  { simplify_eq. right. left. by exists e. }
  destruct (uuid_New env w2) as [u w3]. cbn zeta in Hrun.
  destruct (CreateAccessPoint (cloud d) (Name req) (create_options d req fs gid u) w3)
    as [[e|ap] w4]; simplify_eq.
  - right. right. left. by eexists gid, u, e, _.
  - right. right. right. by exists gid, u, ap.
Qed.

(** X1: when the request passes the checks and the file system lookup
    fails with [e], CreateVolume answers Unauthenticated for AccessDenied,
    InvalidArgument for NotFound and Internal otherwise; the lookup is the
    only call made, so no identity is allocated. *)
Theorem X1_file_system_lookup_failure {W} (env : Env W) (d : Driver W)
    (req : CreateVolumeRequest) (fs : string) (lo hi : Z) (w w1 : W)
    (tr : list Event) (e : error) :
  first_failed_check env req = None ->
  Parameters req !! "fileSystemId" = Some fs ->
  gid_range (Parameters req) = Some (lo, hi) ->
  DescribeFileSystem (cloud d) fs w = (Some e, w1) ->
  exists m,
    CreateVolume env d req (w, tr) =
      (inl (Status match e with
                   | ErrAccessDenied => Unauthenticated
                   | ErrNotFound => InvalidArgument
                   | _ => Internal
                   end m),
       (w1, (tr ++ [CallDescribeFileSystem fs (Some e)])%list)).
Proof.
  intros Hchk Hfs Hrange Hdesc.
  rewrite (CreateVolume_exec env d req fs lo hi w tr Hchk Hfs Hrange), Hdesc.
  destruct e; by eexists.
Qed.

(** The file system is not found. *)
Lemma X1_file_system_lookup_failure_witness :
  exists m,
    CreateVolume (scripted_env all_good parseVolumeId_spec)
      (scripted_driver (with_describeFileSystem (Some ErrNotFound) all_good) no_entries false)
      (request_on "fs-1" no_entries) (0%nat, []) =
      (inl (Status InvalidArgument m),
       (1%nat, [CallDescribeFileSystem "fs-1" (Some ErrNotFound)])).
Proof.
  apply (X1_file_system_lookup_failure
           (scripted_env all_good parseVolumeId_spec)
           (scripted_driver (with_describeFileSystem (Some ErrNotFound) all_good)
              no_entries false)
           (request_on "fs-1" no_entries) "fs-1" 50000 7000000 0%nat 1%nat []
           ErrNotFound).
  - vm_compute. reflexivity.
  - vm_compute. reflexivity.
  - vm_compute. reflexivity.
  - reflexivity.
Defined.

(** X2: when the allocator has no identity to give, its error is
    returned as it came, and nothing is called after the allocator: no
    unique suffix is drawn, no access point is created, nothing is
    released. *)
Theorem X2_allocation_failure_propagated {W} (env : Env W) (d : Driver W)
    (req : CreateVolumeRequest) (fs : string) (lo hi : Z) (w w1 w2 : W)
    (tr : list Event) (e : error) :
  first_failed_check env req = None ->
  Parameters req !! "fileSystemId" = Some fs ->
  gid_range (Parameters req) = Some (lo, hi) ->
  DescribeFileSystem (cloud d) fs w = (None, w1) ->
  getNextGid (gidAllocator d) fs lo hi w1 = (inl e, w2) ->
  CreateVolume env d req (w, tr) =
    (inl (Propagated e),
     (w2, (tr ++ [CallDescribeFileSystem fs None;
                  CallGetNextGid fs lo hi (inl e)])%list)).
Proof.
  intros Hchk Hfs Hrange Hdesc Hgid.
  by rewrite (CreateVolume_exec env d req fs lo hi w tr Hchk Hfs Hrange), Hdesc, Hgid.
Qed.

(** The range is exhausted. *)
Lemma X2_allocation_failure_propagated_witness :
  CreateVolume (scripted_env all_good parseVolumeId_spec)
    (scripted_driver (with_getNextGid (inl (ErrOther "no free gid")) all_good)
       no_entries false)
    (request_on "fs-1" no_entries) (0%nat, []) =
    (inl (Propagated (ErrOther "no free gid")),
     (2%nat, [CallDescribeFileSystem "fs-1" None;
              CallGetNextGid "fs-1" 50000 7000000 (inl (ErrOther "no free gid"))])).
Proof.
  apply (X2_allocation_failure_propagated
           (scripted_env all_good parseVolumeId_spec)
           (scripted_driver (with_getNextGid (inl (ErrOther "no free gid")) all_good)
              no_entries false)
           (request_on "fs-1" no_entries) "fs-1" 50000 7000000 0%nat 1%nat 2%nat []
           (ErrOther "no free gid")).
  - vm_compute. reflexivity.
  - vm_compute. reflexivity.
  - vm_compute. reflexivity.
  - reflexivity.
  - reflexivity.
Defined.

(** X3: when both bounds are given and well formed, the allocator is
    asked for an identity of the request's file system within exactly the
    bounds parsed from the parameters. *)
Theorem X3_given_range_is_used {W} (env : Env W) (d : Driver W)
    (req : CreateVolumeRequest) (fs a b : string) (lo hi : Z) (w w1 : W)
    (tr : list Event) :
  first_failed_check env req = None ->
  Parameters req !! "fileSystemId" = Some fs ->
  Parameters req !! "gidRangeStart" = Some a ->
  Parameters req !! "gidRangeEnd" = Some b ->
  Go.Atoi a = Some lo -> Go.Atoi b = Some hi -> 0 < lo -> lo < hi ->
  DescribeFileSystem (cloud d) fs w = (None, w1) ->
  exists res w' rest,
    CreateVolume env d req (w, tr) =
      (res, (w', (tr ++ CallDescribeFileSystem fs None
                     :: CallGetNextGid fs lo hi
                          (fst (getNextGid (gidAllocator d) fs lo hi w1))
                     :: rest)%list)).
Proof.
  intros Hchk Hfs Hmin Hmax Ha Hb Hlo Hhi Hdesc.
  rewrite (CreateVolume_exec env d req fs lo hi w tr Hchk Hfs).
  2:{ unfold gid_range. fold GidMin in Hmin. fold GidMax in Hmax.
      rewrite Hmin, Hmax, Ha, Hb.
      by rewrite (proj2 (Z.ltb_lt 0 lo)), (proj2 (Z.ltb_lt lo hi)). }
  rewrite Hdesc.
  destruct (getNextGid (gidAllocator d) fs lo hi w1) as [[e|gid] w2]; cbn [fst].
  - by eexists _, _, [].
  - destruct (uuid_New env w2) as [u w3].
    destruct (CreateAccessPoint (cloud d) (Name req) (create_options d req fs gid u) w3)
      as [[e|ap] w4]; by eexists _, _, _.
Qed.

(** The range 1000 to 2000. *)
Lemma X3_given_range_is_used_witness :
  exists res w' rest,
    CreateVolume (scripted_env all_good parseVolumeId_spec)
      (scripted_driver all_good no_entries false)
      (request_on "fs-1"
         (<[ "gidRangeStart" := "1000" ]> (<[ "gidRangeEnd" := "2000" ]> no_entries)))
      (0%nat, []) =
      (res, (w', CallDescribeFileSystem "fs-1" None
                   :: CallGetNextGid "fs-1" 1000 2000 (inr 50000) :: rest)).
Proof.
  apply (X3_given_range_is_used
           (scripted_env all_good parseVolumeId_spec)
           (scripted_driver all_good no_entries false)
           (request_on "fs-1"
              (<[ "gidRangeStart" := "1000" ]> (<[ "gidRangeEnd" := "2000" ]> no_entries)))
           "fs-1" "1000" "2000" 1000 2000 0%nat 1%nat []).
  - vm_compute. reflexivity.
  - vm_compute. reflexivity.
  - vm_compute. reflexivity.
  - vm_compute. reflexivity.
  - reflexivity.
  - reflexivity.
  - reflexivity.
  - reflexivity.
  - reflexivity.
Defined.

Ltac enter_range_checks env Hchk :=
  let Hname := fresh "Hname" in
  let Hcaps := fresh "Hcaps" in
  let Hvalid := fresh "Hvalid" in
  let Hmode := fresh "Hmode" in
  let Hfs := fresh "Hfs" in
  let Hblank := fresh "Hblank" in
  let fs := fresh "fs" in
  destruct (first_failed_check_None env _ Hchk)
    as (Hname & Hcaps & Hvalid & Hmode & fs & Hfs & Hblank);
  unfold rejects, CreateVolume;
  rewrite (decide_False (P := Name _ = "")) by exact Hname;
  rewrite (decide_False (P := length _ = 0%nat))
    by (intros Hlen; apply Hcaps; by apply nil_length_inv);
  rewrite Hvalid; cbn [negb];
  unfold bind at 1; rewrite Hmode;
  rewrite (decide_False (P := "efs-ap" <> AccessPointMode)) by (intros Hne; by apply Hne);
  unfold ret at 1;
  unfold bind at 1; rewrite Hfs, Hblank;
  unfold ret at 1; unfold bind at 1.

(** X4: once the four request checks pass, the identity range is checked
    in a fixed order, each failure with its own message and no
    collaborator called: the start must parse, then be positive; an end
    without a start is reported as a missing start whatever the end
    holds; a start without an end is reported with the same message,
    which names the start; then the end must parse, then exceed the
    start. *)
Theorem X4_range_check_order {W} (env : Env W) (d : Driver W)
    (req : CreateVolumeRequest) (st : St W) :
  first_failed_check env req = None ->
  (forall a, Parameters req !! "gidRangeStart" = Some a -> Go.Atoi a = None ->
     rejects env d req st (MsgFailedToParse "gidRangeStart" a))
  /\ (forall a lo, Parameters req !! "gidRangeStart" = Some a -> Go.Atoi a = Some lo ->
        lo <= 0 -> rejects env d req st (MsgMustBeGreaterThanZero "gidRangeStart"))
  /\ (forall b, Parameters req !! "gidRangeStart" = None ->
        Parameters req !! "gidRangeEnd" = Some b ->
        rejects env d req st (MsgMissingParameter "gidRangeStart"))
  /\ (forall a lo, Parameters req !! "gidRangeStart" = Some a -> Go.Atoi a = Some lo ->
        0 < lo -> Parameters req !! "gidRangeEnd" = None ->
        rejects env d req st (MsgMissingParameter "gidRangeStart"))
  /\ (forall a lo b, Parameters req !! "gidRangeStart" = Some a -> Go.Atoi a = Some lo ->
        0 < lo -> Parameters req !! "gidRangeEnd" = Some b -> Go.Atoi b = None ->
        rejects env d req st (MsgFailedToParse "gidRangeEnd" b))
  /\ (forall a lo b hi, Parameters req !! "gidRangeStart" = Some a -> Go.Atoi a = Some lo ->
        0 < lo -> Parameters req !! "gidRangeEnd" = Some b -> Go.Atoi b = Some hi ->
        hi <= lo ->
        rejects env d req st (MsgMustBeGreaterThan "gidRangeEnd" "gidRangeStart")).
Proof.
  intros Hchk.
  change "gidRangeStart" with GidMin. change "gidRangeEnd" with GidMax.
  repeat split.
  - intros a Hmin Ha. enter_range_checks env Hchk. by rewrite Hmin, Ha.
  - intros a lo Hmin Ha Hlo. enter_range_checks env Hchk. rewrite Hmin, Ha.
    by rewrite (proj2 (Z.leb_le lo 0)).
  - intros b Hmin Hmax. enter_range_checks env Hchk. rewrite Hmin.
    unfold ret at 1. unfold bind at 1. by rewrite Hmax.
  - intros a lo Hmin Ha Hlo Hmax. enter_range_checks env Hchk. rewrite Hmin, Ha.
    rewrite (proj2 (Z.leb_gt lo 0)) by done.
    unfold ret at 1. unfold bind at 1. rewrite Hmax.
    by rewrite (proj2 (Z.eqb_neq lo 0)) by lia.
  - intros a lo b Hmin Ha Hlo Hmax Hb. enter_range_checks env Hchk. rewrite Hmin, Ha.
    rewrite (proj2 (Z.leb_gt lo 0)) by done.
    unfold ret at 1. unfold bind at 1. rewrite Hmax, Hb.
    by rewrite (proj2 (Z.eqb_neq lo 0)) by lia.
  - intros a lo b hi Hmin Ha Hlo Hmax Hb Hhi. enter_range_checks env Hchk.
    rewrite Hmin, Ha.
    rewrite (proj2 (Z.leb_gt lo 0)) by done.
    unfold ret at 1. unfold bind at 1. rewrite Hmax, Hb.
    rewrite (proj2 (Z.eqb_neq lo 0)) by lia.
    by rewrite (proj2 (Z.leb_le hi lo)).
Qed.

(** A start that is no number; a start without an end; an end below the
    start. *)
Lemma X4_range_check_order_witness :
  let env := scripted_env all_good parseVolumeId_spec in
  let d := scripted_driver all_good no_entries false in
  rejects env d (request_on "fs-1" (<[ "gidRangeStart" := "1e3" ]> no_entries))
    (0%nat, []) (MsgFailedToParse "gidRangeStart" "1e3")
  /\ rejects env d (request_on "fs-1" (<[ "gidRangeStart" := "1000" ]> no_entries))
       (0%nat, []) (MsgMissingParameter "gidRangeStart")
  /\ rejects env d
       (request_on "fs-1"
          (<[ "gidRangeStart" := "1000" ]> (<[ "gidRangeEnd" := "999" ]> no_entries)))
       (0%nat, []) (MsgMustBeGreaterThan "gidRangeEnd" "gidRangeStart").
Proof.
  cbn zeta. split; [|split].
  - assert (first_failed_check (scripted_env all_good parseVolumeId_spec)
              (request_on "fs-1" (<[ "gidRangeStart" := "1e3" ]> no_entries)) = None)
      as Hchk by (vm_compute; reflexivity).
    apply (proj1 (X4_range_check_order _ (scripted_driver all_good no_entries false)
                    _ (0%nat, []) Hchk)).
    + vm_compute. reflexivity.
    + vm_compute. reflexivity.
  - assert (first_failed_check (scripted_env all_good parseVolumeId_spec)
              (request_on "fs-1" (<[ "gidRangeStart" := "1000" ]> no_entries)) = None)
      as Hchk by (vm_compute; reflexivity).
    destruct (X4_range_check_order _ (scripted_driver all_good no_entries false)
                _ (0%nat, []) Hchk) as (_ & _ & _ & H & _).
    apply (H "1000" 1000).
    + vm_compute. reflexivity.
    + vm_compute. reflexivity.
    + reflexivity.
    + vm_compute. reflexivity.
  - assert (first_failed_check (scripted_env all_good parseVolumeId_spec)
              (request_on "fs-1"
                 (<[ "gidRangeStart" := "1000" ]> (<[ "gidRangeEnd" := "999" ]> no_entries)))
            = None) as Hchk by (vm_compute; reflexivity).
    destruct (X4_range_check_order _ (scripted_driver all_good no_entries false)
                _ (0%nat, []) Hchk) as (_ & _ & _ & _ & _ & H).
    apply (H "1000" 1000 "999" 999).
    + vm_compute. reflexivity.
    + vm_compute. reflexivity.
    + reflexivity.
    + vm_compute. reflexivity.
    + vm_compute. reflexivity.
    + discriminate.
Defined.

(** X5: the tags of every access point CreateVolume asks for are the
    driver's tags, each with its value, and the default cluster tag
    ["efs.csi.aws.com/cluster" = "true"] unless the driver has a tag with
    that key, which then wins; there is no other tag. *)
Theorem X5_tags_of_created_access_point {W} (env : Env W) (d : Driver W)
    (req : CreateVolumeRequest) (w w' : W) (tr : list Event)
    (res : RpcError + CreateVolumeResponse)
    (name : string) (opts : AccessPointOptions) (r : error + AccessPoint) :
  CreateVolume env d req (w, []) = (res, (w', tr)) ->
  CallCreateAccessPoint name opts r ∈ tr ->
  forall k,
    Tags opts !! k =
      match tags d !! k with
      | Some v => Some v
      | None => if decide (k = "efs.csi.aws.com/cluster") then Some "true" else None
      end.
Proof.
  intros Hrun Hin k.
  assert (exists fs gid u, opts = create_options d req fs gid u) as (fs & gid & u & ->).
  { destruct (CreateVolume_cases env d req w w' [] tr res Hrun)
      as [(m & _ & _ & -> & _)|(fs & lo & hi & _ & _ & _ & Hcase)].
    { by apply elem_of_nil in Hin. }
    destruct Hcase as [(e & w1 & _ & -> & _)|[(e & -> & _)|[(gid & u & e & m & -> & _)
                      |(gid & u & ap & -> & _)]]]; cbn [app] in Hin; in_trace Hin; eauto. }
  cbn [Tags create_options]. unfold DefaultTagKey, DefaultTagValue.
  destruct (tags d !! k) as [v|] eqn:Hk.
  - by apply lookup_union_Some_l.
  - rewrite lookup_union_r by done. rewrite lookup_singleton.
    destruct (decide (k = "efs.csi.aws.com/cluster")) as [->|Hne].
    + by rewrite decide_True.
    + by rewrite decide_False.
Qed.

(** The driver's own cluster tag replaces the default one. *)
Lemma X5_tags_of_created_access_point_witness :
  Tags (create_options (scripted_driver all_good sample_tags false)
          (request_on "fs-1" no_entries) "fs-1" 50000
          "123e4567-e89b-12d3-a456-426614174000") !! "efs.csi.aws.com/cluster" =
    match sample_tags !! "efs.csi.aws.com/cluster" with
    | Some v => Some v
    | None =>
        if decide ("efs.csi.aws.com/cluster" = "efs.csi.aws.com/cluster")
        then Some "true" else None
    end.
Proof.
  apply (X5_tags_of_created_access_point
           (scripted_env all_good parseVolumeId_spec)
           (scripted_driver all_good sample_tags false)
           (request_on "fs-1" no_entries) 0%nat 4%nat
           [CallDescribeFileSystem "fs-1" None;
            CallGetNextGid "fs-1" 50000 7000000 (inr 50000);
            CallUuidNew "123e4567-e89b-12d3-a456-426614174000";
            CallCreateAccessPoint "v1"
              (create_options (scripted_driver all_good sample_tags false)
                 (request_on "fs-1" no_entries) "fs-1" 50000
                 "123e4567-e89b-12d3-a456-426614174000")
              (inr {| AccessPointId := "ap-1"; AccessPointRootDir := "/efs-csi-ap-50000-x" |})]
           (inr {| Volume_ := {| CapacityBytes := 1073741824;
                                 VolumeId := "fs-1::ap-1";
                                 VolumeContext := ∅ |} |})
           "v1" _ (inr {| AccessPointId := "ap-1";
                          AccessPointRootDir := "/efs-csi-ap-50000-x" |})).
  - vm_compute. reflexivity.
  - do 3 apply list_elem_of_further. apply list_elem_of_here.
Defined.

(** X6: in every access point CreateVolume asks for, successfully or
    not, the name is the request's name, the file system is the
    request's fileSystemId parameter, the capacity field carries the
    requested bytes (0 without a capacity range), the directory
    permissions are the directoryPerms parameter as given (empty when
    absent), and uid and gid are the same. *)
Theorem X6_options_pass_through {W} (env : Env W) (d : Driver W)
    (req : CreateVolumeRequest) (w w' : W) (tr : list Event)
    (res : RpcError + CreateVolumeResponse)
    (name : string) (opts : AccessPointOptions) (r : error + AccessPoint) :
  CreateVolume env d req (w, []) = (res, (w', tr)) ->
  CallCreateAccessPoint name opts r ∈ tr ->
  name = Name req
  /\ Parameters req !! "fileSystemId" = Some (FileSystemId opts)
  /\ CapacityGiB opts = match CapacityRange_ req with
                        | Some c => RequiredBytes c
                        | None => 0
                        end
  /\ DirectoryPerms_ opts = match Parameters req !! "directoryPerms" with
                            | Some perms => perms
                            | None => ""
                            end
  /\ Uid opts = Gid opts.
Proof.
  intros Hrun Hin.
  destruct (CreateVolume_cases env d req w w' [] tr res Hrun)
    as [(m & _ & _ & -> & _)|(fs & lo & hi & _ & Hfs & _ & Hcase)].
  { by apply elem_of_nil in Hin. }
  destruct Hcase as [(e & w1 & _ & -> & _)|[(e & -> & _)|[(gid & u & e & m & -> & _)
                    |(gid & u & ap & -> & _)]]]; cbn [app] in Hin; in_trace Hin;
    by repeat split.
Qed.

(** The creation call of scenario A. *)
Lemma X6_options_pass_through_witness :
  let req := request_on "fs-1" (<[ "directoryPerms" := "0755" ]> no_entries) in
  let opts := create_options (scripted_driver all_good no_entries false) req
                "fs-1" 50000 "123e4567-e89b-12d3-a456-426614174000" in
  "v1" = Name req
  /\ Parameters req !! "fileSystemId" = Some (FileSystemId opts)
  /\ CapacityGiB opts = match CapacityRange_ req with
                        | Some c => RequiredBytes c
                        | None => 0
                        end
  /\ DirectoryPerms_ opts = match Parameters req !! "directoryPerms" with
                            | Some perms => perms
                            | None => ""
                            end
  /\ Uid opts = Gid opts.
Proof.
  cbn zeta.
  apply (X6_options_pass_through
           (scripted_env all_good parseVolumeId_spec)
           (scripted_driver all_good no_entries false)
           (request_on "fs-1" (<[ "directoryPerms" := "0755" ]> no_entries)) 0%nat 4%nat
           [CallDescribeFileSystem "fs-1" None;
            CallGetNextGid "fs-1" 50000 7000000 (inr 50000);
            CallUuidNew "123e4567-e89b-12d3-a456-426614174000";
            CallCreateAccessPoint "v1"
              (create_options (scripted_driver all_good no_entries false)
                 (request_on "fs-1" (<[ "directoryPerms" := "0755" ]> no_entries))
                 "fs-1" 50000 "123e4567-e89b-12d3-a456-426614174000")
              (inr {| AccessPointId := "ap-1"; AccessPointRootDir := "/efs-csi-ap-50000-x" |})]
           (inr {| Volume_ := {| CapacityBytes := 1073741824;
                                 VolumeId := "fs-1::ap-1";
                                 VolumeContext := ∅ |} |})
           "v1"
           (create_options (scripted_driver all_good no_entries false)
              (request_on "fs-1" (<[ "directoryPerms" := "0755" ]> no_entries))
              "fs-1" 50000 "123e4567-e89b-12d3-a456-426614174000")
           (inr {| AccessPointId := "ap-1";
                   AccessPointRootDir := "/efs-csi-ap-50000-x" |})).
  - vm_compute. reflexivity.
  - do 3 apply list_elem_of_further. apply list_elem_of_here.
Defined.

(** X7: the calls of any run of CreateVolume are an initial part of:
    file-system lookup, identity allocation, unique suffix, access-point
    creation, identity release, all for one file system and the
    request's name.  So there is at most one creation call, no call to
    the mounter or to the file-system package, no access point described
    or deleted; and an identity is released only after the creation of
    its access point failed. *)
Theorem X7_calls_of_CreateVolume {W} (env : Env W) (d : Driver W)
    (req : CreateVolumeRequest) (w w' : W) (tr : list Event)
    (res : RpcError + CreateVolumeResponse) :
  CreateVolume env d req (w, []) = (res, (w', tr)) ->
  exists fs lo hi r1 r2 u opts r4 gid,
    tr `prefix_of` [CallDescribeFileSystem fs r1;
                    CallGetNextGid fs lo hi r2;
                    CallUuidNew u;
                    CallCreateAccessPoint (Name req) opts r4;
                    CallReleaseGid fs gid]
    /\ (CallReleaseGid fs gid ∈ tr -> r2 = inr gid /\ exists e, r4 = inl e).
Proof.
  intros Hrun.
  destruct (CreateVolume_cases env d req w w' [] tr res Hrun)
    as [(m & _ & _ & -> & _)|(fs & lo & hi & _ & Hfs & _ & Hcase)].
  { exists "", 0, 0, None, (inr 0), "", (create_options d req "" 0 ""), (inr
      {| AccessPointId := ""; AccessPointRootDir := "" |}), 0.
    split; [apply prefix_nil|]. intros Hin. by apply elem_of_nil in Hin. }
  destruct Hcase as [(e & w1 & _ & -> & _)|[(e & -> & _)|[(gid & u & e & m & -> & _)
                    |(gid & u & ap & -> & _)]]]; cbn [app].
  - exists fs, lo, hi, (Some e), (inr 0), "", (create_options d req "" 0 ""),
      (inr {| AccessPointId := ""; AccessPointRootDir := "" |}), 0.
    split; [by eexists|]. intros Hin. in_trace Hin.
  - exists fs, lo, hi, None, (inl e), "", (create_options d req "" 0 ""),
      (inr {| AccessPointId := ""; AccessPointRootDir := "" |}), 0.
    split; [by eexists|]. intros Hin. in_trace Hin.
  - exists fs, lo, hi, None, (inr gid), u, (create_options d req fs gid u), (inl e), gid.
    split; [by exists []|]. intros _. split; [done|by exists e].
  - exists fs, lo, hi, None, (inr gid), u, (create_options d req fs gid u), (inr ap), (gid + 1).
    split; [by eexists|]. intros Hin. in_trace Hin.
Qed.

(** The run whose creation call answers AlreadyExists makes all five
    calls. *)
Lemma X7_calls_of_CreateVolume_witness :
  exists fs lo hi r1 r2 u opts r4 gid,
    [CallDescribeFileSystem "fs-1" None;
     CallGetNextGid "fs-1" 50000 7000000 (inr 50000);
     CallUuidNew "123e4567-e89b-12d3-a456-426614174000";
     CallCreateAccessPoint "v1"
       (create_options (scripted_driver (with_create (inl ErrAlreadyExists) all_good)
                          no_entries false)
          (request_on "fs-1" no_entries) "fs-1" 50000
          "123e4567-e89b-12d3-a456-426614174000")
       (inl ErrAlreadyExists);
     CallReleaseGid "fs-1" 50000]
    `prefix_of` [CallDescribeFileSystem fs r1;
                 CallGetNextGid fs lo hi r2;
                 CallUuidNew u;
                 CallCreateAccessPoint (Name (request_on "fs-1" no_entries)) opts r4;
                 CallReleaseGid fs gid]
    /\ (CallReleaseGid fs gid
          ∈ [CallDescribeFileSystem "fs-1" None;
             CallGetNextGid "fs-1" 50000 7000000 (inr 50000);
             CallUuidNew "123e4567-e89b-12d3-a456-426614174000";
             CallCreateAccessPoint "v1"
               (create_options (scripted_driver (with_create (inl ErrAlreadyExists) all_good)
                                  no_entries false)
                  (request_on "fs-1" no_entries) "fs-1" 50000
                  "123e4567-e89b-12d3-a456-426614174000")
               (inl ErrAlreadyExists);
             CallReleaseGid "fs-1" 50000] ->
        r2 = inr gid /\ exists e, r4 = inl e).
Proof.
  apply (X7_calls_of_CreateVolume
           (scripted_env all_good parseVolumeId_spec)
           (scripted_driver (with_create (inl ErrAlreadyExists) all_good) no_entries false)
           (request_on "fs-1" no_entries) 0%nat 5%nat _
           (inl (Status AlreadyExists MsgAccessPointAlreadyExists))).
  vm_compute. reflexivity.
Defined.

(** X8: an error of CreateVolume is either a status with one of the
    codes InvalidArgument, Unauthenticated, AlreadyExists and Internal, or
    the very error the identity allocator answered in this run. *)
Theorem X8_errors_of_CreateVolume {W} (env : Env W) (d : Driver W)
    (req : CreateVolumeRequest) (w w' : W) (tr : list Event) (err : RpcError) :
  CreateVolume env d req (w, []) = (inl err, (w', tr)) ->
  (exists c m, err = Status c m /\ create_code c = true)
  \/ (exists e fs lo hi, err = Propagated e /\ CallGetNextGid fs lo hi (inl e) ∈ tr).
Proof.
  intros Hrun.
  destruct (CreateVolume_cases env d req w w' [] tr _ Hrun)
    as [(m & Hres & _)|(fs & lo & hi & _ & _ & _ & Hcase)].
  { simplify_eq. left. by eexists _, _. }
  destruct Hcase as [(e & w1 & _ & _ & Hres)|[(e & -> & Hres)|[(gid & u & e & m & _ & Hres)
                    |(gid & u & ap & _ & Hres)]]]; simplify_eq.
  - left. destruct e; by eexists _, _.
  - right. exists e, fs, lo, hi. split; [done|].
    apply list_elem_of_further, list_elem_of_here.
  - left. destruct e; by eexists _, _.
Qed.

(** An access denied by the cloud at the file-system lookup. *)
Lemma X8_errors_of_CreateVolume_witness :
  (exists c m, Status Unauthenticated (MsgAccessDenied ErrAccessDenied) = Status c m
               /\ create_code c = true)
  \/ (exists e fs lo hi,
        Status Unauthenticated (MsgAccessDenied ErrAccessDenied) = Propagated e
        /\ CallGetNextGid fs lo hi (inl e)
             ∈ [CallDescribeFileSystem "fs-1" (Some ErrAccessDenied)]).
Proof.
  apply (X8_errors_of_CreateVolume
           (scripted_env all_good parseVolumeId_spec)
           (scripted_driver (with_describeFileSystem (Some ErrAccessDenied) all_good)
              no_entries false)
           (request_on "fs-1" no_entries) 0%nat 1%nat).
  vm_compute. reflexivity.
Defined.

(** X9: CreateVolume returns a volume exactly when the request passes
    the four checks, its identity range is well formed, the file system
    lookup succeeds, the allocator yields an identity and the cloud
    creates the access point. *)
Theorem X9_success_of_CreateVolume {W} (env : Env W) (d : Driver W)
    (req : CreateVolumeRequest) (w : W) (tr : list Event) :
  (exists resp st', CreateVolume env d req (w, tr) = (inr resp, st'))
  <->
  (first_failed_check env req = None
   /\ exists fs lo hi w1 gid w2 u w3 ap w4,
        Parameters req !! "fileSystemId" = Some fs
        /\ gid_range (Parameters req) = Some (lo, hi)
        /\ DescribeFileSystem (cloud d) fs w = (None, w1)
        /\ getNextGid (gidAllocator d) fs lo hi w1 = (inr gid, w2)
        /\ uuid_New env w2 = (u, w3)
        /\ CreateAccessPoint (cloud d) (Name req) (create_options d req fs gid u) w3
           = (inr ap, w4)).
Proof.
  split.
  - intros (resp & st' & Hrun).
    destruct (first_failed_check env req) as [m|] eqn:Hchk.
    { rewrite (CreateVolume_rejects env d req m _ Hchk) in Hrun. discriminate. }
    split; [done|].
    destruct (gid_range (Parameters req)) as [[lo hi]|] eqn:Hrange.
    2:{ destruct (CreateVolume_range_rejected env d req (w, tr) Hchk Hrange) as [m Hm].
        rewrite Hm in Hrun. discriminate. }
    destruct (first_failed_check_None env req Hchk) as (_ & _ & _ & _ & fs & Hfs & _).
    rewrite (CreateVolume_exec env d req fs lo hi w tr Hchk Hfs Hrange) in Hrun.
    destruct (DescribeFileSystem (cloud d) fs w) as [[e|] w1] eqn:Hdesc; [discriminate|].
    destruct (getNextGid (gidAllocator d) fs lo hi w1) as [[e|gid] w2] eqn:Hgid;
      [discriminate|].
    destruct (uuid_New env w2) as [u w3] eqn:Hu. cbn zeta in Hrun.
    destruct (CreateAccessPoint (cloud d) (Name req) (create_options d req fs gid u) w3)
      as [[e|ap] w4] eqn:Hcreate; [discriminate|].
    by exists fs, lo, hi, w1, gid, w2, u, w3, ap, w4.
  - intros (Hchk & fs & lo & hi & w1 & gid & w2 & u & w3 & ap & w4
            & Hfs & Hrange & Hdesc & Hgid & Hu & Hcreate).
    rewrite (CreateVolume_exec env d req fs lo hi w tr Hchk Hfs Hrange).
    rewrite Hdesc, Hgid, Hu. cbn zeta. rewrite Hcreate. by eexists _, _.
Qed.

(** X10: CreateVolume reads six parameters only: two requests with the
    same name, capacity and capabilities whose parameter maps agree on
    provisioningMode, fileSystemId, gidRangeStart, gidRangeEnd,
    directoryPerms and basePath run alike, whatever else the maps hold. *)
Theorem X10_other_parameters_ignored {W} (env : Env W) (d : Driver W)
    (req1 req2 : CreateVolumeRequest) (st : St W) :
  Name req1 = Name req2 ->
  CapacityRange_ req1 = CapacityRange_ req2 ->
  VolumeCapabilities req1 = VolumeCapabilities req2 ->
  (forall k, k ∈ ["provisioningMode"; "fileSystemId"; "gidRangeStart"; "gidRangeEnd";
                  "directoryPerms"; "basePath"] ->
     Parameters req1 !! k = Parameters req2 !! k) ->
  CreateVolume env d req1 st = CreateVolume env d req2 st.
Proof.
  intros Hname Hcap Hcaps Hparams.
  assert (Parameters req1 !! ProvisioningMode = Parameters req2 !! ProvisioningMode) as H1
    by (apply Hparams; set_solver).
  assert (Parameters req1 !! FsId = Parameters req2 !! FsId) as H2
    by (apply Hparams; set_solver).
  assert (Parameters req1 !! GidMin = Parameters req2 !! GidMin) as H3
    by (apply Hparams; set_solver).
  assert (Parameters req1 !! GidMax = Parameters req2 !! GidMax) as H4
    by (apply Hparams; set_solver).
  assert (Parameters req1 !! DirectoryPerms = Parameters req2 !! DirectoryPerms) as H5
    by (apply Hparams; set_solver).
  assert (Parameters req1 !! BasePath = Parameters req2 !! BasePath) as H6
    by (apply Hparams; set_solver).
  unfold CreateVolume. by rewrite Hname, Hcap, Hcaps, H1, H2, H3, H4, H5, H6.
Qed.

(** A parameter unknown to the driver changes nothing. *)
Lemma X10_other_parameters_ignored_witness :
  CreateVolume (scripted_env all_good parseVolumeId_spec)
    (scripted_driver all_good no_entries false)
    (request_on "fs-1" (<[ "uid" := "1000" ]> no_entries)) (0%nat, []) =
  CreateVolume (scripted_env all_good parseVolumeId_spec)
    (scripted_driver all_good no_entries false)
    (request_on "fs-1" no_entries) (0%nat, []).
Proof.
  apply (X10_other_parameters_ignored
           (scripted_env all_good parseVolumeId_spec)
           (scripted_driver all_good no_entries false)
           (request_on "fs-1" (<[ "uid" := "1000" ]> no_entries))
           (request_on "fs-1" no_entries) (0%nat, [])).
  - reflexivity.
  - reflexivity.
  - reflexivity.
  - intros k Hk.
    repeat (apply elem_of_cons in Hk as [->|Hk]; [vm_compute; reflexivity|]).
    by apply elem_of_nil in Hk.
Defined.

(** X11: no identity is left without an owner: in every run in which
    the allocator yielded an identity, either CreateVolume succeeded and
    the access point created on that file system has that identity as
    gid and uid, or CreateVolume failed and that identity was released on
    that file system. *)
Theorem X11_identity_owned_or_released {W} (env : Env W) (d : Driver W)
    (req : CreateVolumeRequest) (w w' : W) (tr : list Event)
    (res : RpcError + CreateVolumeResponse) (fs : string) (lo hi gid : Z) :
  CreateVolume env d req (w, []) = (res, (w', tr)) ->
  CallGetNextGid fs lo hi (inr gid) ∈ tr ->
  (exists resp name opts ap,
     res = inr resp
     /\ CallCreateAccessPoint name opts (inr ap) ∈ tr
     /\ FileSystemId opts = fs /\ Gid opts = gid /\ Uid opts = gid)
  \/ (exists err, res = inl err /\ CallReleaseGid fs gid ∈ tr).
Proof.
  intros Hrun Hin.
  destruct (CreateVolume_cases env d req w w' [] tr res Hrun)
    as [(m & _ & _ & -> & _)|(fs' & lo' & hi' & _ & _ & _ & Hcase)].
  { by apply elem_of_nil in Hin. }
  destruct Hcase as [(e & w1 & _ & -> & _)|[(e & -> & _)|[(gid' & u & e & m & -> & ->)
                    |(gid' & u & ap & -> & ->)]]]; cbn [app] in Hin; in_trace Hin.
  - right. eexists. split; [done|]. do 4 apply list_elem_of_further. apply list_elem_of_here.
  - left. eexists _, _, _, ap. split; [done|].
    split; [do 3 apply list_elem_of_further; apply list_elem_of_here|done].
Qed.

(** Identity 50000 is released when the cloud refuses the access point. *)
Lemma X11_identity_owned_or_released_witness :
  let tr :=
    [CallDescribeFileSystem "fs-1" None;
     CallGetNextGid "fs-1" 50000 7000000 (inr 50000);
     CallUuidNew "123e4567-e89b-12d3-a456-426614174000";
     CallCreateAccessPoint "v1"
       (create_options (scripted_driver (with_create (inl ErrAlreadyExists) all_good)
                          no_entries false)
          (request_on "fs-1" no_entries) "fs-1" 50000
          "123e4567-e89b-12d3-a456-426614174000")
       (inl ErrAlreadyExists);
     CallReleaseGid "fs-1" 50000] in
  (exists resp name opts ap,
     (inl (Status AlreadyExists MsgAccessPointAlreadyExists)
        : RpcError + CreateVolumeResponse) = inr resp
     /\ CallCreateAccessPoint name opts (inr ap) ∈ tr
     /\ FileSystemId opts = "fs-1" /\ Gid opts = 50000 /\ Uid opts = 50000)
  \/ (exists err,
        (inl (Status AlreadyExists MsgAccessPointAlreadyExists)
           : RpcError + CreateVolumeResponse) = inl err
        /\ CallReleaseGid "fs-1" 50000 ∈ tr).
Proof.
  cbn zeta.
  apply (X11_identity_owned_or_released
           (scripted_env all_good parseVolumeId_spec)
           (scripted_driver (with_create (inl ErrAlreadyExists) all_good) no_entries false)
           (request_on "fs-1" no_entries) 0%nat 5%nat _ _ "fs-1" 50000 7000000 50000).
  - vm_compute. reflexivity.
  - apply list_elem_of_further, list_elem_of_here.
Defined.

(** The scenario A request succeeds. *)
Lemma X9_success_of_CreateVolume_witness :
  exists resp st',
    CreateVolume (scripted_env all_good parseVolumeId_spec)
      (scripted_driver all_good no_entries false)
      (request_on "fs-1" no_entries) (0%nat, []) = (inr resp, st').
Proof.
  apply (proj2 (X9_success_of_CreateVolume
                  (scripted_env all_good parseVolumeId_spec)
                  (scripted_driver all_good no_entries false)
                  (request_on "fs-1" no_entries) 0%nat [])).
  split; [vm_compute; reflexivity|].
  exists "fs-1", 50000, 7000000, 1%nat, 50000, 2%nat,
    "123e4567-e89b-12d3-a456-426614174000", 3%nat,
    {| AccessPointId := "ap-1"; AccessPointRootDir := "/efs-csi-ap-50000-x" |}, 4%nat.
  repeat split; vm_compute; reflexivity.
Defined.

(** ** Further properties of DeleteVolume *)

Ltac enter_delete Hid Hparse Hap :=
  unfold DeleteVolume;
  rewrite decide_False by exact Hid;
  rewrite Hparse;
  rewrite decide_True by exact Hap;
  cbn zeta.

(** X12: with root-directory deletion off, DeleteVolume on a decodable
    identifier with an access point makes one call, the deletion of that
    access point, and answers by its outcome: success when it succeeds
    or reports NotFound, Unauthenticated for AccessDenied, Internal
    otherwise.  The mounter and the file system are not touched. *)
Theorem X12_delete_without_root_dir {W} (env : Env W) (d : Driver W)
    (req : DeleteVolumeRequest) (fs sub ap : string) (r : option error)
    (w w1 : W) (tr : list Event) :
  DeleteVolumeId req <> "" ->
  parseVolumeId env (DeleteVolumeId req) = inr (fs, sub, ap) -> ap <> "" ->
  deleteAccessPointRootDir d = false ->
  DeleteAccessPoint (cloud d) ap w = (r, w1) ->
  DeleteVolume env d req (w, tr) =
    (delete_outcome (DeleteVolumeId req) r,
     (w1, (tr ++ [CallDeleteAccessPoint ap r])%list)).
Proof.
  intros Hid Hparse Hap Hflag Hdel. enter_delete Hid Hparse Hap.
  rewrite Hflag. unfold bind, call, ret, fail. cbn [fst snd]. rewrite Hdel.
  destruct r as [[| | |text]|]; reflexivity.
Qed.

(** The cloud denies the deletion. *)
Lemma X12_delete_without_root_dir_witness :
  DeleteVolume (scripted_env all_good parseVolumeId_spec)
    (scripted_driver (with_delete (Some ErrAccessDenied) all_good) no_entries false)
    {| DeleteVolumeId := "fs-1::ap-1" |} (0%nat, []) =
    (inl (Status Unauthenticated (MsgAccessDenied ErrAccessDenied)),
     (1%nat, [CallDeleteAccessPoint "ap-1" (Some ErrAccessDenied)])).
Proof.
  apply (X12_delete_without_root_dir
           (scripted_env all_good parseVolumeId_spec)
           (scripted_driver (with_delete (Some ErrAccessDenied) all_good) no_entries false)
           {| DeleteVolumeId := "fs-1::ap-1" |} "fs-1" "" "ap-1"
           (Some ErrAccessDenied) 0%nat 1%nat []).
  - discriminate.
  - vm_compute. reflexivity.
  - discriminate.
  - reflexivity.
  - reflexivity.
Defined.

(** X13: with root-directory deletion on and every step succeeding,
    DeleteVolume describes the access point, makes the directory
    "/var/lib/csi/pv/" ++ accessPointId, mounts the file system there
    with type "efs" and the option "tls", removes recursively that
    directory followed by the access point's root directory, unmounts,
    removes the directory, and only then deletes the access point,
    answering by the outcome of the deletion. *)
Theorem X13_delete_with_root_dir {W} (env : Env W) (d : Driver W)
    (req : DeleteVolumeRequest) (fs sub ap : string) (accessPoint : AccessPoint)
    (r : option error) (w w1 w2 w3 w4 w5 w6 w7 : W) (tr : list Event) :
  let target := "/var/lib/csi/pv" ++ "/" ++ ap in
  DeleteVolumeId req <> "" ->
  parseVolumeId env (DeleteVolumeId req) = inr (fs, sub, ap) -> ap <> "" ->
  deleteAccessPointRootDir d = true ->
  DescribeAccessPoint (cloud d) ap w = (inr accessPoint, w1) ->
  MakeDir (mounter d) target w1 = (None, w2) ->
  Mount (mounter d) fs target "efs" ["tls"] w2 = (None, w3) ->
  os_RemoveAll env (target ++ AccessPointRootDir accessPoint) w3 = (None, w4) ->
  Unmount (mounter d) target w4 = (None, w5) ->
  os_RemoveAll env target w5 = (None, w6) ->
  DeleteAccessPoint (cloud d) ap w6 = (r, w7) ->
  DeleteVolume env d req (w, tr) =
    (delete_outcome (DeleteVolumeId req) r,
     (w7, (tr ++ [CallDescribeAccessPoint ap (inr accessPoint);
                  CallMakeDir target None;
                  CallMount fs target "efs" ["tls"] None;
                  CallOsRemoveAll (target ++ AccessPointRootDir accessPoint) None;
                  CallUnmount target None;
                  CallOsRemoveAll target None;
                  CallDeleteAccessPoint ap r])%list)).
Proof.
  intros target Hid Hparse Hap Hflag Hdesc Hmk Hmount Hrm Hum Hrm2 Hdel.
  enter_delete Hid Hparse Hap.
  rewrite Hflag. unfold bind, call, ret, fail. cbn [fst snd].
  rewrite Hdesc. cbn [fst snd]. unfold TempMountPathPrefix. fold target.
  rewrite Hmk. cbn [fst snd]. rewrite Hmount. cbn [fst snd]. rewrite Hrm.
  cbn [fst snd]. rewrite Hum. cbn [fst snd]. rewrite Hrm2. cbn [fst snd]. rewrite Hdel.
  rewrite <- !app_assoc. destruct r as [[| | |text]|]; reflexivity.
Qed.

(** The volume ["fs-1::ap-1"] with every collaborator succeeding. *)
Lemma X13_delete_with_root_dir_witness :
  DeleteVolume (scripted_env all_good parseVolumeId_spec)
    (scripted_driver all_good no_entries true)
    {| DeleteVolumeId := "fs-1::ap-1" |} (0%nat, []) =
    (inr mkDeleteVolumeResponse,
     (7%nat,
      [CallDescribeAccessPoint "ap-1"
         (inr {| AccessPointId := "ap-1"; AccessPointRootDir := "/efs-csi-ap-50000-x" |});
       CallMakeDir "/var/lib/csi/pv/ap-1" None;
       CallMount "fs-1" "/var/lib/csi/pv/ap-1" "efs" ["tls"] None;
       CallOsRemoveAll "/var/lib/csi/pv/ap-1/efs-csi-ap-50000-x" None;
       CallUnmount "/var/lib/csi/pv/ap-1" None;
       CallOsRemoveAll "/var/lib/csi/pv/ap-1" None;
       CallDeleteAccessPoint "ap-1" None])).
Proof.
  apply (X13_delete_with_root_dir
           (scripted_env all_good parseVolumeId_spec)
           (scripted_driver all_good no_entries true)
           {| DeleteVolumeId := "fs-1::ap-1" |} "fs-1" "" "ap-1"
           {| AccessPointId := "ap-1"; AccessPointRootDir := "/efs-csi-ap-50000-x" |}
           None 0%nat 1%nat 2%nat 3%nat 4%nat 5%nat 6%nat 7%nat []).
  - discriminate.
  - vm_compute. reflexivity.
  - discriminate.
  - reflexivity.
  - reflexivity.
  - reflexivity.
  - reflexivity.
  - reflexivity.
  - reflexivity.
  - reflexivity.
  - reflexivity.
Defined.

(** X14: with root-directory deletion on, a failure to describe the
    access point other than NotFound ends DeleteVolume at once, with
    Unauthenticated for AccessDenied and Internal otherwise: nothing is
    mounted and the access point is not deleted. *)
Theorem X14_describe_failure {W} (env : Env W) (d : Driver W)
    (req : DeleteVolumeRequest) (fs sub ap : string) (e : error)
    (w w1 : W) (tr : list Event) :
  DeleteVolumeId req <> "" ->
  parseVolumeId env (DeleteVolumeId req) = inr (fs, sub, ap) -> ap <> "" ->
  deleteAccessPointRootDir d = true ->
  DescribeAccessPoint (cloud d) ap w = (inl e, w1) ->
  e <> ErrNotFound ->
  DeleteVolume env d req (w, tr) =
    (inl match e with
         | ErrAccessDenied => Status Unauthenticated (MsgAccessDenied e)
         | _ => Status Internal (MsgCouldNotDescribeAccessPoint ap e)
         end,
     (w1, (tr ++ [CallDescribeAccessPoint ap (inl e)])%list)).
Proof.
  intros Hid Hparse Hap Hflag Hdesc Hne. enter_delete Hid Hparse Hap.
  rewrite Hflag. unfold bind, call, ret, fail. cbn [fst snd]. rewrite Hdesc.
  destruct e; try reflexivity. done.
Qed.

(** The cloud fails for a reason of its own. *)
Lemma X14_describe_failure_witness :
  DeleteVolume (scripted_env all_good parseVolumeId_spec)
    (scripted_driver (with_describe (inl (ErrOther "throttled")) all_good) no_entries true)
    {| DeleteVolumeId := "fs-1::ap-1" |} (0%nat, []) =
    (inl (Status Internal (MsgCouldNotDescribeAccessPoint "ap-1" (ErrOther "throttled"))),
     (1%nat, [CallDescribeAccessPoint "ap-1" (inl (ErrOther "throttled"))])).
Proof.
  apply (X14_describe_failure
           (scripted_env all_good parseVolumeId_spec)
           (scripted_driver (with_describe (inl (ErrOther "throttled")) all_good)
              no_entries true)
           {| DeleteVolumeId := "fs-1::ap-1" |} "fs-1" "" "ap-1" (ErrOther "throttled")
           0%nat 1%nat []).
  - discriminate.
  - vm_compute. reflexivity.
  - discriminate.
  - reflexivity.
  - reflexivity.
  - discriminate.
Defined.

(** X15: when the mount of the file system fails, DeleteVolume removes
    the directory it had made for it, whatever that removal answers, and
    returns Internal naming the file system and the directory; the
    access point is neither cleaned nor deleted. *)
Theorem X15_mount_failure_removes_directory {W} (env : Env W) (d : Driver W)
    (req : DeleteVolumeRequest) (fs sub ap : string) (accessPoint : AccessPoint)
    (e : error) (r : option error) (w w1 w2 w3 w4 : W) (tr : list Event) :
  let target := "/var/lib/csi/pv" ++ "/" ++ ap in
  DeleteVolumeId req <> "" ->
  parseVolumeId env (DeleteVolumeId req) = inr (fs, sub, ap) -> ap <> "" ->
  deleteAccessPointRootDir d = true ->
  DescribeAccessPoint (cloud d) ap w = (inr accessPoint, w1) ->
  MakeDir (mounter d) target w1 = (None, w2) ->
  Mount (mounter d) fs target "efs" ["tls"] w2 = (Some e, w3) ->
  os_Remove env target w3 = (r, w4) ->
  DeleteVolume env d req (w, tr) =
    (inl (Status Internal (MsgCouldNotMount fs target e)),
     (w4, (tr ++ [CallDescribeAccessPoint ap (inr accessPoint);
                  CallMakeDir target None;
                  CallMount fs target "efs" ["tls"] (Some e);
                  CallOsRemove target r])%list)).
Proof.
  intros target Hid Hparse Hap Hflag Hdesc Hmk Hmount Hrm.
  enter_delete Hid Hparse Hap.
  rewrite Hflag. unfold bind, call, ret, fail. cbn [fst snd].
  rewrite Hdesc. cbn [fst snd]. unfold TempMountPathPrefix. fold target.
  rewrite Hmk. cbn [fst snd]. rewrite Hmount. cbn [fst snd]. rewrite Hrm.
  by rewrite <- !app_assoc.
Qed.

(** The mount times out. *)
Lemma X15_mount_failure_removes_directory_witness :
  DeleteVolume (scripted_env all_good parseVolumeId_spec)
    (scripted_driver (with_mount (Some (ErrOther "timeout")) all_good) no_entries true)
    {| DeleteVolumeId := "fs-1::ap-1" |} (0%nat, []) =
    (inl (Status Internal
            (MsgCouldNotMount "fs-1" "/var/lib/csi/pv/ap-1" (ErrOther "timeout"))),
     (4%nat,
      [CallDescribeAccessPoint "ap-1"
         (inr {| AccessPointId := "ap-1"; AccessPointRootDir := "/efs-csi-ap-50000-x" |});
       CallMakeDir "/var/lib/csi/pv/ap-1" None;
       CallMount "fs-1" "/var/lib/csi/pv/ap-1" "efs" ["tls"] (Some (ErrOther "timeout"));
       CallOsRemove "/var/lib/csi/pv/ap-1" None])).
Proof.
  apply (X15_mount_failure_removes_directory
           (scripted_env all_good parseVolumeId_spec)
           (scripted_driver (with_mount (Some (ErrOther "timeout")) all_good)
              no_entries true)
           {| DeleteVolumeId := "fs-1::ap-1" |} "fs-1" "" "ap-1"
           {| AccessPointId := "ap-1"; AccessPointRootDir := "/efs-csi-ap-50000-x" |}
           (ErrOther "timeout") None 0%nat 1%nat 2%nat 3%nat 4%nat []).
  - discriminate.
  - vm_compute. reflexivity.
  - discriminate.
  - reflexivity.
  - reflexivity.
  - reflexivity.
  - reflexivity.
  - reflexivity.
Defined.

(** X16: DeleteVolume deletes an access point only as its last call, and
    only the one named by the volume identifier; with root-directory
    deletion on, only after the access point was described, the file
    system mounted, the root directory removed, the file system
    unmounted and the directory removed, each successfully.  The answer
    is then decided by the outcome of the deletion. *)
Theorem X16_deletion_comes_last {W} (env : Env W) (d : Driver W)
    (req : DeleteVolumeRequest) (w w' : W) (tr : list Event)
    (res : RpcError + DeleteVolumeResponse) (ap : string) (r : option error) :
  DeleteVolume env d req (w, []) = (res, (w', tr)) ->
  CallDeleteAccessPoint ap r ∈ tr ->
  exists fs sub,
    parseVolumeId env (DeleteVolumeId req) = inr (fs, sub, ap)
    /\ res = delete_outcome (DeleteVolumeId req) r
    /\ (if deleteAccessPointRootDir d then
          exists accessPoint,
            tr = [CallDescribeAccessPoint ap (inr accessPoint);
                  CallMakeDir ("/var/lib/csi/pv/" ++ ap) None;
                  CallMount fs ("/var/lib/csi/pv/" ++ ap) "efs" ["tls"] None;
                  CallOsRemoveAll (("/var/lib/csi/pv/" ++ ap)
                                   ++ AccessPointRootDir accessPoint) None;
                  CallUnmount ("/var/lib/csi/pv/" ++ ap) None;
                  CallOsRemoveAll ("/var/lib/csi/pv/" ++ ap) None;
                  CallDeleteAccessPoint ap r]
        else tr = [CallDeleteAccessPoint ap r]).
Proof.
  intros Hrun Hin. unfold DeleteVolume in Hrun.
  destruct (decide (DeleteVolumeId req = "")) as [|Hid].
  { unfold fail in Hrun. simplify_eq. by apply elem_of_nil in Hin. }
  destruct (parseVolumeId env (DeleteVolumeId req)) as [e|[[fs sub] ap']] eqn:Hparse.
  { unfold ret in Hrun. simplify_eq. by apply elem_of_nil in Hin. }
  destruct (decide (ap' <> "")) as [Hap|Hap].
  2:{ unfold fail in Hrun. simplify_eq. by apply elem_of_nil in Hin. }
  cbn zeta in Hrun. unfold TempMountPathPrefix in Hrun.
  change ("/var/lib/csi/pv" ++ "/" ++ ap') with ("/var/lib/csi/pv/" ++ ap') in Hrun.
  destruct (deleteAccessPointRootDir d);
    run_calls Hrun; in_trace Hin; exists fs, sub; repeat split; eauto.
  all: match goal with e : error |- _ => by destruct e end.
Qed.

(** The deletion is the seventh call of a full run. *)
Lemma X16_deletion_comes_last_witness :
  exists fs sub,
    parseVolumeId_spec "fs-1::ap-1" = inr (fs, sub, "ap-1")
    /\ inr mkDeleteVolumeResponse = delete_outcome "fs-1::ap-1" (Some ErrNotFound)
    /\ exists accessPoint,
         [CallDescribeAccessPoint "ap-1"
            (inr {| AccessPointId := "ap-1"; AccessPointRootDir := "/efs-csi-ap-50000-x" |});
          CallMakeDir "/var/lib/csi/pv/ap-1" None;
          CallMount "fs-1" "/var/lib/csi/pv/ap-1" "efs" ["tls"] None;
          CallOsRemoveAll "/var/lib/csi/pv/ap-1/efs-csi-ap-50000-x" None;
          CallUnmount "/var/lib/csi/pv/ap-1" None;
          CallOsRemoveAll "/var/lib/csi/pv/ap-1" None;
          CallDeleteAccessPoint "ap-1" (Some ErrNotFound)]
         = [CallDescribeAccessPoint "ap-1" (inr accessPoint);
            CallMakeDir ("/var/lib/csi/pv/" ++ "ap-1") None;
            CallMount fs ("/var/lib/csi/pv/" ++ "ap-1") "efs" ["tls"] None;
            CallOsRemoveAll (("/var/lib/csi/pv/" ++ "ap-1")
                             ++ AccessPointRootDir accessPoint) None;
            CallUnmount ("/var/lib/csi/pv/" ++ "ap-1") None;
            CallOsRemoveAll ("/var/lib/csi/pv/" ++ "ap-1") None;
            CallDeleteAccessPoint "ap-1" (Some ErrNotFound)].
Proof.
  apply (X16_deletion_comes_last
           (scripted_env all_good parseVolumeId_spec)
           (scripted_driver (with_delete (Some ErrNotFound) all_good) no_entries true)
           {| DeleteVolumeId := "fs-1::ap-1" |} 0%nat 7%nat
           [CallDescribeAccessPoint "ap-1"
              (inr {| AccessPointId := "ap-1"; AccessPointRootDir := "/efs-csi-ap-50000-x" |});
            CallMakeDir "/var/lib/csi/pv/ap-1" None;
            CallMount "fs-1" "/var/lib/csi/pv/ap-1" "efs" ["tls"] None;
            CallOsRemoveAll "/var/lib/csi/pv/ap-1/efs-csi-ap-50000-x" None;
            CallUnmount "/var/lib/csi/pv/ap-1" None;
            CallOsRemoveAll "/var/lib/csi/pv/ap-1" None;
            CallDeleteAccessPoint "ap-1" (Some ErrNotFound)]
           (inr mkDeleteVolumeResponse) "ap-1" (Some ErrNotFound)).
  - vm_compute. reflexivity.
  - do 6 apply list_elem_of_further. apply list_elem_of_here.
Defined.

(** X17: an error of DeleteVolume is a status of the controller with one
    of the codes InvalidArgument, NotFound, Unauthenticated and Internal;
    no error of a collaborator is returned as it came. *)
Theorem X17_errors_of_DeleteVolume {W} (env : Env W) (d : Driver W)
    (req : DeleteVolumeRequest) (st st' : St W) (err : RpcError) :
  DeleteVolume env d req st = (inl err, st') ->
  exists c m, err = Status c m /\ delete_code c = true.
Proof.
  intros Hrun. unfold DeleteVolume in Hrun.
  destruct (decide (DeleteVolumeId req = "")) as [|Hid].
  { unfold fail in Hrun. simplify_eq. by eexists _, _. }
  destruct (parseVolumeId env (DeleteVolumeId req)) as [e|[[fs sub] ap']] eqn:Hparse.
  { unfold ret in Hrun. simplify_eq. }
  destruct (decide (ap' <> "")) as [Hap|Hap].
  2:{ unfold fail in Hrun. simplify_eq. by eexists _, _. }
  cbn zeta in Hrun.
  destruct (deleteAccessPointRootDir d); run_calls Hrun; by eexists _, _.
Qed.

(** An identifier without an access point is answered NotFound. *)
Lemma X17_errors_of_DeleteVolume_witness :
  exists c m,
    Status NotFound (MsgFailedToFindAccessPoint "fs-1") = Status c m
    /\ delete_code c = true.
Proof.
  apply (X17_errors_of_DeleteVolume
           (scripted_env all_good parseVolumeId_optional)
           (scripted_driver all_good no_entries true)
           {| DeleteVolumeId := "fs-1" |} (0%nat, []) (0%nat, [])).
  vm_compute. reflexivity.
Defined.

Lemma prefix_append (a b : string) : String.prefix a (a ++ b) = true.
Proof.
  induction a as [|c a IH]; [by destruct b|].
  change (String c a ++ b) with (String c (a ++ b)). cbn [String.prefix].
  destruct (ascii_dec c c); [exact IH|done].
Qed.

Lemma prefix_self (a : string) : String.prefix a a = true.
Proof.
  induction a as [|c a IH]; [done|]. cbn [String.prefix].
  destruct (ascii_dec c c); [exact IH|done].
Qed.

(** X18: every path DeleteVolume hands to the mounter or to the file
    system package (directory made, mount target, removals, unmount)
    begins with "/var/lib/csi/pv/" followed by the access-point
    identifier decoded from the volume identifier. *)
Theorem X18_paths_under_mount_directory {W} (env : Env W) (d : Driver W)
    (req : DeleteVolumeRequest) (fs sub ap : string) (w w' : W) (tr : list Event)
    (res : RpcError + DeleteVolumeResponse) (ev : Event) (p : string) :
  parseVolumeId env (DeleteVolumeId req) = inr (fs, sub, ap) ->
  DeleteVolume env d req (w, []) = (res, (w', tr)) ->
  ev ∈ tr -> event_path ev = Some p ->
  String.prefix ("/var/lib/csi/pv/" ++ ap) p = true.
Proof.
  intros Hparse Hrun Hin Hp. unfold DeleteVolume in Hrun.
  destruct (decide (DeleteVolumeId req = "")) as [|Hid].
  { unfold fail in Hrun. simplify_eq. by apply elem_of_nil in Hin. }
  rewrite Hparse in Hrun.
  destruct (decide (ap <> "")) as [Hap|Hap].
  2:{ unfold fail in Hrun. simplify_eq. by apply elem_of_nil in Hin. }
  cbn zeta in Hrun. unfold TempMountPathPrefix in Hrun.
  change ("/var/lib/csi/pv" ++ "/" ++ ap) with ("/var/lib/csi/pv/" ++ ap) in Hrun.
  destruct (deleteAccessPointRootDir d);
    run_calls Hrun; in_trace Hin; cbn [event_path] in Hp; simplify_eq;
    first [apply prefix_self | apply prefix_append].
Qed.

(** The removal of the root directory of ["ap-1"]. *)
Lemma X18_paths_under_mount_directory_witness :
  String.prefix ("/var/lib/csi/pv/" ++ "ap-1") "/var/lib/csi/pv/ap-1/efs-csi-ap-50000-x"
  = true.
Proof.
  apply (X18_paths_under_mount_directory
           (scripted_env all_good parseVolumeId_spec)
           (scripted_driver all_good no_entries true)
           {| DeleteVolumeId := "fs-1::ap-1" |} "fs-1" "" "ap-1" 0%nat 7%nat
           [CallDescribeAccessPoint "ap-1"
              (inr {| AccessPointId := "ap-1"; AccessPointRootDir := "/efs-csi-ap-50000-x" |});
            CallMakeDir "/var/lib/csi/pv/ap-1" None;
            CallMount "fs-1" "/var/lib/csi/pv/ap-1" "efs" ["tls"] None;
            CallOsRemoveAll "/var/lib/csi/pv/ap-1/efs-csi-ap-50000-x" None;
            CallUnmount "/var/lib/csi/pv/ap-1" None;
            CallOsRemoveAll "/var/lib/csi/pv/ap-1" None;
            CallDeleteAccessPoint "ap-1" None]
           (inr mkDeleteVolumeResponse)
           (CallOsRemoveAll "/var/lib/csi/pv/ap-1/efs-csi-ap-50000-x" None)).
  - vm_compute. reflexivity.
  - vm_compute. reflexivity.
  - do 3 apply list_elem_of_further. apply list_elem_of_here.
  - reflexivity.
Defined.

(** ** CreateVolume with DeleteVolume and ValidateVolumeCapabilities *)

Lemma created_identifier_not_empty (fs ap : string) : fs ++ "::" ++ ap <> "".
Proof. by destruct fs. Qed.



(** ** Further properties of ValidateVolumeCapabilities *)

(** X20: ValidateVolumeCapabilities calls no collaborator, whatever the
    request; it checks the volume identifier first and the capability
    list second, both before decoding: an empty identifier is answered
    InvalidArgument even with capabilities missing, and an empty
    capability list is answered InvalidArgument even for an identifier
    that would not decode. *)
Theorem X20_validate_checks {W} (env : Env W)
    (req : ValidateVolumeCapabilitiesRequest) (st : St W) :
  snd (ValidateVolumeCapabilities env req st) = st
  /\ (ValidateVolumeId req = "" ->
      fst (ValidateVolumeCapabilities env req st)
      = inl (Status InvalidArgument MsgVolumeIdNotProvided))
  /\ (ValidateVolumeId req <> "" -> ValidateVolumeCapabilities_ req = [] ->
      fst (ValidateVolumeCapabilities env req st)
      = inl (Status InvalidArgument MsgVolumeCapsNotProvided)).
Proof.
  unfold ValidateVolumeCapabilities. split; [|split].
  - destruct (decide (ValidateVolumeId req = "")); [done|].
    destruct (decide (length (ValidateVolumeCapabilities_ req) = 0%nat)); [done|].
    by destruct (parseVolumeId env (ValidateVolumeId req)).
  - intros Hid. by rewrite decide_True.
  - intros Hid Hcaps. rewrite decide_False by done. by rewrite Hcaps.
Qed.

(** An identifier that does not decode, with no capability asked. *)
Lemma X20_validate_checks_witness :
  fst (ValidateVolumeCapabilities (scripted_env all_good parseVolumeId_spec)
         {| ValidateVolumeId := "not-a-volume-id"; ValidateVolumeCapabilities_ := [] |}
         (0%nat, []))
  = inl (Status InvalidArgument MsgVolumeCapsNotProvided).
Proof.
  destruct (X20_validate_checks (scripted_env all_good parseVolumeId_spec)
              {| ValidateVolumeId := "not-a-volume-id"; ValidateVolumeCapabilities_ := [] |}
              (0%nat, [])) as (_ & _ & H).
  apply H; [discriminate|reflexivity].
Defined.

(** X21: the capabilities CreateVolume accepted are confirmed for the
    volume it created: after a successful CreateVolume,
    ValidateVolumeCapabilities on the returned identifier and the
    request's capabilities answers success with exactly these
    capabilities confirmed, provided the identifier decodes. *)
Theorem X21_created_capabilities_confirmed {W} (env : Env W) (d : Driver W)
    (req : CreateVolumeRequest) (resp : CreateVolumeResponse)
    (st st' st'' : St W) (t : string * string * string) :
  CreateVolume env d req st = (inr resp, st') ->
  parseVolumeId env (VolumeId (Volume_ resp)) = inr t ->
  ValidateVolumeCapabilities env
    {| ValidateVolumeId := VolumeId (Volume_ resp);
       ValidateVolumeCapabilities_ := VolumeCapabilities req |} st''
  = (inr {| Confirmed := Some (VolumeCapabilities req) |}, st'').
Proof.
  intros Hrun Hparse. destruct st as [w tr], st' as [w' tr'].
  destruct (CreateVolume_cases env d req w w' tr tr' _ Hrun)
    as [(m & ? & _)|(fs & lo & hi & Hchk & _ & _ & Hcase)]; [done|].
  destruct (first_failed_check_None env req Hchk) as (_ & Hcaps & Hvalid & _).
  destruct Hcase as [(e & w1 & _ & _ & ?)|[(e & _ & ?)|[(gid & u & e & m & _ & ?)
                    |(gid & u & ap & _ & Hres)]]]; try done.
  simplify_eq. cbn [Volume_ VolumeId] in *.
  unfold ValidateVolumeCapabilities. cbn [ValidateVolumeId ValidateVolumeCapabilities_].
  rewrite decide_False by apply created_identifier_not_empty.
  rewrite decide_False by (intros Hlen; apply Hcaps; by apply nil_length_inv).
  by rewrite Hparse, Hvalid.
Qed.

(** Scenario A followed by the validation of its capabilities. *)
Lemma X21_created_capabilities_confirmed_witness :
  ValidateVolumeCapabilities (scripted_env all_good parseVolumeId_spec)
    {| ValidateVolumeId := "fs-1::ap-1";
       ValidateVolumeCapabilities_ := [ {| Mode := MULTI_NODE_MULTI_WRITER |} ] |}
    (4%nat, [])
  = (inr {| Confirmed := Some [ {| Mode := MULTI_NODE_MULTI_WRITER |} ] |}, (4%nat, [])).
Proof.
  apply (X21_created_capabilities_confirmed
           (scripted_env all_good parseVolumeId_spec)
           (scripted_driver all_good no_entries false)
           (request_on "fs-1" no_entries)
           {| Volume_ := {| CapacityBytes := 1073741824;
                            VolumeId := "fs-1::ap-1";
                            VolumeContext := ∅ |} |}
           (0%nat, [])
           (4%nat,
            [CallDescribeFileSystem "fs-1" None;
             CallGetNextGid "fs-1" 50000 7000000 (inr 50000);
             CallUuidNew "123e4567-e89b-12d3-a456-426614174000";
             CallCreateAccessPoint "v1"
               (create_options (scripted_driver all_good no_entries false)
                  (request_on "fs-1" no_entries) "fs-1" 50000
                  "123e4567-e89b-12d3-a456-426614174000")
               (inr {| AccessPointId := "ap-1";
                       AccessPointRootDir := "/efs-csi-ap-50000-x" |})])
           (4%nat, []) ("fs-1", "", "ap-1")).
  - vm_compute. reflexivity.
  - vm_compute. reflexivity.
Defined.

(** ** ControllerGetCapabilities *)

Lemma append_capabilities_types (table : list RPC_Type)
    (caps : list ControllerServiceCapability) :
  map Rpc_Type (append_capabilities table caps) = (map Rpc_Type caps ++ table)%list.
Proof.
  unfold append_capabilities. revert caps.
  induction table as [|cap table IH]; intros caps; cbn [fold_left].
  - by rewrite app_nil_r.
  - rewrite IH, map_app. cbn [map]. by rewrite <- app_assoc.
Qed.

(** X22: ControllerGetCapabilities never fails and calls no
    collaborator; it advertises one capability for each entry of
    controllerCaps, in order, so that the controller announces the
    creation and deletion of volumes and none of the RPCs it leaves
    unimplemented. *)
Theorem X22_advertised_capabilities {W} (st : St W) :
  exists resp,
    ControllerGetCapabilities st = (inr resp, st)
    /\ map Rpc_Type (Capabilities resp) = controllerCaps
    /\ forall c, c ∈ Capabilities resp -> Rpc_Type c = CREATE_DELETE_VOLUME.
Proof.
  eexists. split; [reflexivity|]. cbn [Capabilities]. split.
  - by rewrite append_capabilities_types.
  - intros c Hc.
    assert (Rpc_Type c ∈ map Rpc_Type (append_capabilities controllerCaps [])) as Hin
      by (by apply list_elem_of_fmap_2).
    rewrite append_capabilities_types in Hin. cbn in Hin. in_trace Hin. done.
Qed.
